(** * Venus: the [Wiki] class of [fandom/wiki.py]

    A shallow embedding of the polling client of the Venus bot: the
    URL builders, the three endpoint calls, and the two fetchers
    [fetch_rc] and [fetch_posts], together with the parts of the Python
    standard library they rely on ([str], [datetime.isoformat],
    [urllib.parse.urlencode], dictionaries, [asyncio.gather]).

    Conventions.
    - A Python [str] is a [string] holding its UTF-8 bytes.  Every string
      operation of the source ([replace] of one ASCII character, [+],
      [join], [quote_plus], slicing of the ASCII output of [isoformat])
      acts the same way on the bytes as on the code points.
    - A Python [dict] used as a parameter set is a [gmap key pyval]; the
      keyword arguments of [url_to], whose order decides the query string,
      are an association list.
    - A coroutine is a computation in the monad [IO]: it threads the log of
      the HTTP requests issued so far and returns a value or an exception. *)

From Stdlib Require Import ZArith NArith String Ascii List Lia.
From stdpp Require Import base gmap strings list fin_maps.

Local Open Scope N_scope.

(** ** Python scalars *)

Inductive pyval :=
| VNone
| VBool (b : bool)
| VInt (z : Z)
| VStr (s : string).

#[global] Instance pyval_eq_dec : EqDecision pyval.
Proof. solve_decision. Defined.

(** [bool(v)]: the test performed by [if v:] and [not v]. *)
Definition truthy (v : pyval) : bool :=
  match v with
  | VNone => false
  | VBool b => b
  | VInt z => negb (z =? 0)%Z
  | VStr s => negb (String.eqb s "")
  end.

(** ** Decimal and hexadecimal formatting *)

Definition digit (n : N) : ascii := ascii_of_N (48 + n mod 10).

(** The decimal digits of [n], most significant first, in front of [acc]. *)
Fixpoint dec_go (fuel : nat) (n : N) (acc : string) : string :=
  let acc' := String (digit n) acc in
  match fuel with
  | O => acc'
  | S f => if n <? 10 then acc' else dec_go f (n / 10) acc'
  end.

Definition dec (n : N) : string := dec_go (N.to_nat (N.size n)) n "".

Fixpoint zeros (k : nat) : string :=
  match k with
  | O => ""
  | S k' => String "0" (zeros k')
  end.

(** ["%0wd" % n] for a non-negative [n]: at least [w] digits. *)
Definition format_d (w : nat) (n : N) : string :=
  let s := dec n in zeros (w - String.length s) +:+ s.

(** The [w] low decimal digits of [n], in front of [acc]. *)
Fixpoint fixed_go (w : nat) (n : N) (acc : string) : string :=
  match w with
  | O => acc
  | S w' => fixed_go w' (n / 10) (String (digit n) acc)
  end.

Definition fixed (w : nat) (n : N) : string := fixed_go w n "".

(** [str(z)] for an [int]. *)
Definition str_int (z : Z) : string :=
  if (z <? 0)%Z then "-" +:+ dec (Z.abs_N z) else dec (Z.to_N z).

(** [str(v)], which is also what an f-string field [{v}] renders. *)
Definition py_str (v : pyval) : string :=
  match v with
  | VNone => "None"
  | VBool true => "True"
  | VBool false => "False"
  | VInt z => str_int z
  | VStr s => s
  end.

Definition hex_digit (n : N) : ascii :=
  if n <? 10 then ascii_of_N (48 + n) else ascii_of_N (55 + n).

(** ['%{:02X}'.format(b)] for a byte [b]. *)
Definition percent_hex (c : ascii) : string :=
  let b := N_of_ascii c in
  String "%" (String (hex_digit (b / 16)) (String (hex_digit (b mod 16)) "")).

(** ** String helpers *)

(** [s.replace(a, b)] for one-character [a] and [b]. *)
Fixpoint replace_char (a b : ascii) (s : string) : string :=
  match s with
  | EmptyString => EmptyString
  | String c s' => String (if Ascii.eqb c a then b else c) (replace_char a b s')
  end.

(** [a in s] for a one-character [a]. *)
Fixpoint has_char (a : ascii) (s : string) : bool :=
  match s with
  | EmptyString => false
  | String c s' => Ascii.eqb c a || has_char a s'
  end.

Definition has_space : string -> bool := has_char " ".

(** [sep.join(l)]. *)
Fixpoint join (sep : string) (l : list string) : string :=
  match l with
  | [] => ""
  | [x] => x
  | x :: l' => x +:+ sep +:+ join sep l'
  end.

(** [s[:-k]]: all but the last [k] characters, empty when [s] is shorter. *)
Definition drop_last (k : nat) (s : string) : string :=
  String.substring 0 (String.length s - k) s.

(** ** [datetime] and [isoformat] *)

(** A [datetime.datetime].  [utcoffset] is [None] for a naive value and
    otherwise the offset of its [tzinfo] in microseconds. *)
Record datetime := {
  year : N;
  month : N;
  day : N;
  hour : N;
  minute : N;
  second : N;
  microsecond : N;
  utcoffset : option Z
}.

(** The field ranges the [datetime] constructor enforces. *)
Definition valid_datetime (d : datetime) : Prop :=
  1 <= year d <= 9999 /\ 1 <= month d <= 12 /\ 1 <= day d <= 31 /\
  hour d < 24 /\ minute d < 60 /\ second d < 60 /\ microsecond d < 1000000 /\
  match utcoffset d with
  | None => True
  | Some o => (- 86400000000 < o < 86400000000)%Z
  end.

(** [_format_time(hh, mm, ss, us, 'auto')]: the fraction is printed only
    when the microseconds are not zero. *)
Definition format_time (hh mm ss us : N) : string :=
  let hms := format_d 2 hh +:+ ":" +:+ format_d 2 mm +:+ ":" +:+ format_d 2 ss in
  if us =? 0 then hms else hms +:+ "." +:+ format_d 6 us.

(** [_format_offset(off)]. *)
Definition format_offset (off : option Z) : string :=
  match off with
  | None => ""
  | Some o =>
      let sign := if (o <? 0)%Z then "-" else "+" in
      let a := Z.abs_N o in
      let hh := a / 3600000000 in
      let rest := a mod 3600000000 in
      let mm := rest / 60000000 in
      let ss := rest mod 60000000 in
      let s := sign +:+ format_d 2 hh +:+ ":" +:+ format_d 2 mm in
      if ss =? 0 then s
      else
        let s := s +:+ ":" +:+ format_d 2 (ss / 1000000) in
        if ss mod 1000000 =? 0 then s
        else s +:+ "." +:+ format_d 6 (ss mod 1000000)
  end.

Definition format_date (d : datetime) : string :=
  format_d 4 (year d) +:+ "-" +:+ format_d 2 (month d) +:+ "-" +:+ format_d 2 (day d).

(** [d.isoformat()]. *)
Definition isoformat (d : datetime) : string :=
  format_date d +:+ "T" +:+
  format_time (hour d) (minute d) (second d) (microsecond d) +:+
  format_offset (utcoffset d).

(** What the comment in [fetch_posts] asks for: the ISO-8601 form cut to
    millisecond precision, i.e. [d.isoformat(timespec='milliseconds')]. *)
Definition isoformat_milliseconds (d : datetime) : string :=
  format_date d +:+ "T" +:+
  format_d 2 (hour d) +:+ ":" +:+ format_d 2 (minute d) +:+ ":" +:+
  format_d 2 (second d) +:+ "." +:+ format_d 3 (microsecond d / 1000) +:+
  format_offset (utcoffset d).

(** [d.isoformat(timespec='minutes')]: the form cut after the minutes. *)
Definition isoformat_minutes (d : datetime) : string :=
  format_date d +:+ "T" +:+ format_d 2 (hour d) +:+ ":" +:+ format_d 2 (minute d).

(** ** [urllib.parse]: [quote], [quote_plus], [urlencode] *)

Definition in_range (lo hi : N) (c : ascii) : bool :=
  (lo <=? N_of_ascii c) && (N_of_ascii c <=? hi).

(** [_ALWAYS_SAFE]: ASCII letters, digits and [_.-~]. *)
Definition always_safe (c : ascii) : bool :=
  in_range 65 90 c || in_range 97 122 c || in_range 48 57 c ||
  has_char c "_.-~".

(** [quote(s, safe)] on the UTF-8 bytes of [s]: a byte that is always safe
    or listed in [safe] stands for itself, any other becomes [%XX]. *)
Fixpoint quote (safe : string) (s : string) : string :=
  match s with
  | EmptyString => EmptyString
  | String c s' =>
      (if always_safe c || has_char c safe then String c "" else percent_hex c)
      +:+ quote safe s'
  end.

(** [quote_plus(s)] with its default [safe='']. *)
Definition quote_plus (s : string) : string :=
  if has_space s then replace_char " " "+" (quote " " s) else quote "" s.

(** [urlencode(query)] for a dict [query], given as its items in order. *)
Definition urlencode (query : list (string * pyval)) : string :=
  join "&" (map (fun kv => quote_plus kv.1 +:+ "=" +:+ quote_plus (py_str kv.2)) query).

(** ** Dictionaries *)

(** The keys that occur in the source: strings, and the integer of the
    subscript [params[0]]. *)
Inductive key :=
| KInt (z : Z)
| KStr (s : string).

Coercion KStr : string >-> key.

#[global] Instance key_eq_dec : EqDecision key.
Proof. solve_decision. Defined.

#[global] Instance key_countable : Countable key.
Proof.
  refine (inj_countable'
    (fun k => match k with KInt z => inl z | KStr s => inr s end)
    (fun x => match x with inl z => KInt z | inr s => KStr s end) _).
  intros []; reflexivity.
Defined.

Abbreviation dict := (gmap key pyval).

(** ** Decoded JSON *)

(** What [resp.json()] returns: [None], [bool], [int], [float] (kept as
    its literal), [str], [list], and [dict] with its items in order. *)
#[warnings="-register-all"]
Inductive json :=
| JNull
| JBool (b : bool)
| JInt (z : Z)
| JFloat (literal : string)
| JStr (s : string)
| JArr (l : list json)
| JObj (items : list (string * json)).

(** ** Exceptions and results *)

Inductive exn :=
| KeyError (k : key)
| IndexError
| TypeError
| AttributeError
| RuntimeError (msg : string)
| InvalidTransportType
| ClientError (msg : string).

Inductive result (A : Type) :=
| Ok (a : A)
| Err (e : exn).

Arguments Ok {A} a.
Arguments Err {A} e.

(** [d[k]] on a parameter dict. *)
Definition dict_getitem (d : dict) (k : key) : result pyval :=
  match d !! k with
  | Some v => Ok v
  | None => Err (KeyError k)
  end.

Fixpoint assoc {A} (k : string) (items : list (string * A)) : option A :=
  match items with
  | [] => None
  | (k', v) :: rest => if String.eqb k k' then Some v else assoc k rest
  end.

(** The dict [items] after [items[k] = v] for a key that is present. *)
Fixpoint assoc_set {A} (k : string) (v : A) (items : list (string * A)) : list (string * A) :=
  match items with
  | [] => []
  | (k', v') :: rest =>
      if String.eqb k k' then (k', v) :: rest else (k', v') :: assoc_set k v rest
  end.

(** [j[k]] for a string [k]: a [dict] looks the key up; a [list] or [str]
    refuses a string index and the other values are not subscriptable. *)
Definition json_getitem (j : json) (k : string) : result json :=
  match j with
  | JObj items =>
      match assoc k items with
      | Some v => Ok v
      | None => Err (KeyError k)
      end
  | _ => Err TypeError
  end.

(** The characters of a [str] given by its UTF-8 bytes: a byte [10xxxxxx]
    continues the character before it. *)
Definition is_continuation (c : ascii) : bool := in_range 128 191 c.

Fixpoint utf8_chars_go (s : string) (cur : string) : list string :=
  match s with
  | EmptyString => [cur]
  | String c s' =>
      if is_continuation c then utf8_chars_go s' (cur +:+ String c "")
      else cur :: utf8_chars_go s' (String c "")
  end.

Definition utf8_chars (s : string) : list string :=
  match s with
  | EmptyString => []
  | String c s' => utf8_chars_go s' (String c "")
  end.

(** [list(j)]: the elements an iteration over [j] yields. *)
Definition json_iter (j : json) : result (list json) :=
  match j with
  | JArr l => Ok l
  | JStr s => Ok (map JStr (utf8_chars s))
  | JObj items => Ok (map (fun kv => JStr kv.1) items)
  | _ => Err TypeError
  end.

#[global] Instance result_ret : MRet result := fun A a => Ok a.
#[global] Instance result_bind : MBind result :=
  fun A B f m => match m with Ok a => f a | Err e => Err e end.

(** [l[i]] on a list, for [i >= 0]. *)
Definition list_getitem (l : list json) (i : nat) : result json :=
  match l !! i with
  | Some v => Ok v
  | None => Err IndexError
  end.

(** ** HTTP session and coroutines *)

(** One [session.get(url, params=params)]. *)
Record request := {
  req_url : string;
  req_params : option dict
}.

(** The [aiohttp] session and the remote side behind it: what a GET
    followed by [resp.json()] yields, given the requests issued before it.
    [Err] stands for a network or decoding failure. *)
Record Session := {
  respond : list request -> request -> result json
}.

(** A coroutine: from the log of requests issued so far to an outcome and
    the extended log. *)
Definition IO (A : Type) : Type := list request -> result A * list request.

#[global] Instance IO_ret : MRet IO := fun A a log => (Ok a, log).
#[global] Instance IO_bind : MBind IO :=
  fun A B f m log =>
    match m log with
    | (Ok a, log') => f a log'
    | (Err e, log') => (Err e, log')
    end.

Definition raise {A} (e : exn) : IO A := fun log => (Err e, log).

Definition lift {A} (r : result A) : IO A := fun log => (r, log).

(** [async with session.get(url, params=params) as resp:
       return await resp.json()] *)
Definition get_json (s : Session) (u : string) (params : option dict) : IO json :=
  fun log =>
    let r := {| req_url := u; req_params := params |} in
    (respond s log r, log ++ [r]).

(** Run every task, in the order in which [gather] schedules them. *)
Fixpoint run_tasks {A} (tasks : list (IO A)) (log : list request)
  : list (result A) * list request :=
  match tasks with
  | [] => ([], log)
  | t :: rest =>
      let '(r, log1) := t log in
      let '(rs, log2) := run_tasks rest log1 in
      (r :: rs, log2)
  end.

Fixpoint collect {A} (rs : list (result A)) : result (list A) :=
  match rs with
  | [] => Ok []
  | Ok a :: rest => match collect rest with Ok l => Ok (a :: l) | Err e => Err e end
  | Err e :: _ => Err e
  end.

(** [await asyncio.gather] over the tasks: every task is started, the
    results come back in the order of the tasks, and an exception of a
    task is raised to the caller.  Each task of the source awaits a single
    GET, so running the tasks one after the other in scheduling order
    loses nothing but the overlap of the waiting times. *)
Definition gather {A} (tasks : list (IO A)) : IO (list A) :=
  fun log => let '(rs, log') := run_tasks tasks log in (collect rs, log').

(** ** [transports.discord] *)

Module discord.

(** Modelled from the spec: the [transports] package is not among the
    sources.  A transport "holds a reference to its owning Wiki
    (non-owning, for URL construction) and to a shared request-issuing
    session"; the owning wiki is referred to by its [id], and the
    constructor stores its three arguments. *)
Record DiscordTransport := {
  wiki : pyval;
  url : string;
  session : Session
}.

End discord.

(** ** [class Wiki] *)

Module Wiki.

Record t := {
  id : pyval;
  url : pyval;
  last_check_time : option datetime;
  session : Session;
  transports : list discord.DiscordTransport
}.

(** [__init__(self, wiki_id, url, last_check_time, session)] *)
Definition init (wiki_id url : pyval) (last_check_time : option datetime)
    (session : Session) : t :=
  {| id := wiki_id; url := url; last_check_time := last_check_time;
     session := session; transports := [] |}.

(** [self.transports.append(tr)] *)
Definition append_transport (self : t) (tr : discord.DiscordTransport) : t :=
  {| id := id self; url := url self; last_check_time := last_check_time self;
     session := session self; transports := transports self ++ [tr] |}.

(** [add_transport(self, type, url)]: the wiki after the call and the
    outcome of the call. *)
Definition add_transport (self : t) (type : string) (url : string) : t * result unit :=
  if String.eqb type "discord" then
    (append_transport self
       {| discord.wiki := id self; discord.url := url; discord.session := session self |},
     Ok tt)
  else (self, Err InvalidTransportType).

(** [url_to(self, page, namespace=None, **params)] *)
Definition url_to (self : t) (page : string) (namespace : option string)
    (params : list (string * pyval)) : string :=
  let page := replace_char " " "_" page in
  let url :=
    match namespace with
    | Some (String _ _ as namespace) =>
        let namespace := replace_char " " "_" namespace in
        py_str (url self) +:+ "/wiki/" +:+ namespace +:+ ":" +:+ page
    | _ => py_str (url self) +:+ "/wiki/" +:+ page
    end in
  match params with
  | _ :: _ => url +:+ ("?" +:+ urlencode params)
  | [] => url
  end.

(** [discussions_url(self, thread_id, reply_id=None)] *)
Definition discussions_url (self : t) (thread_id reply_id : pyval) : string :=
  let url := py_str (url self) +:+ "/f/" +:+ py_str thread_id in
  if truthy reply_id then url +:+ ("/r/" +:+ py_str reply_id) else url.

(** [tag_url(self, article_name)] *)
Definition tag_url (self : t) (article_name : string) : string :=
  py_str (url self) +:+ "/f/t/" +:+ replace_char " " "_" article_name.

(** [self.url + suffix]: defined for a [str] url only. *)
Definition url_plus (self : t) (suffix : string) : result string :=
  match url self with
  | VStr u => Ok (u +:+ suffix)
  | _ => Err TypeError
  end.

(** [api(self, params=None)] *)
Definition api (self : t) (params : option dict) : IO json :=
  u ← lift (url_plus self "/api.php");
  get_json (session self) u params.

(** [services(self, service, url, params=None)] *)
Definition services (self : t) (service url : string) (params : option dict) : IO json :=
  get_json (session self)
    ("https://services.fandom.com/" +:+ service +:+ "/" +:+ py_str (id self) +:+ "/" +:+ url)
    params.

(** [query_nirvana(self, **params)] *)
Definition query_nirvana (self : t) (params : dict) : IO json :=
  if negb (truthy (url self)) then
    raise (RuntimeError "Wiki url is required to do this")
  else
    let params := <[KStr "format" := VStr "json"]> params in
    u ← lift (url_plus self "/wikia.php");
    get_json (session self) u (Some params).

(** [if l: params[k] = "|".join(l)] *)
Definition set_joined (k : string) (l : option (list string)) (params : dict) : dict :=
  match l with
  | Some (_ :: _ as l) => <[KStr k := VStr (join "|" l)]> params
  | _ => params
  end.

(** The parameter dict [fetch_rc] builds before it calls [self.api]. *)
Definition fetch_rc_params (limit : pyval)
    (types show recent_changes_props logevents_props : option (list string))
    (before after : option datetime) (namespaces : option (list pyval)) : dict :=
  let params : dict :=
    <[KStr "format" := VStr "json"]>
      (<[KStr "list" := VStr "recentchanges|logevents"]>
        (<[KStr "action" := VStr "query"]> ∅)) in
  let params :=
    if truthy limit then
      <[KStr "lelimit" := limit]> (<[KStr "rclimit" := limit]> params)
    else params in
  let params := set_joined "rctype" types params in
  let params := set_joined "rcshow" show params in
  let params := set_joined "rcprop" recent_changes_props params in
  let params := set_joined "leprop" logevents_props params in
  let params :=
    match after with
    | Some after =>
        <[KStr "leend" := VStr (isoformat after +:+ "Z")]>
          (<[KStr "rcend" := VStr (isoformat after +:+ "Z")]> params)
    | None => params
    end in
  let params :=
    match before with
    | Some before =>
        <[KStr "lestart" := VStr (isoformat before +:+ "Z")]>
          (<[KStr "rcstart" := VStr (isoformat before +:+ "Z")]> params)
    | None => params
    end in
  match namespaces with
  | Some (_ :: _ as namespaces) =>
      <[KStr "namespaces" := VStr (join "|" (map py_str namespaces))]> params
  | _ => params
  end.

(** [fetch_rc(self, *, limit=None, types=None, show=None,
      recent_changes_props=None, logevents_props=None, before=None,
      after=None, namespaces=None)] *)
Definition fetch_rc (self : t) (limit : pyval)
    (types show recent_changes_props logevents_props : option (list string))
    (before after : option datetime) (namespaces : option (list pyval)) : IO json :=
  api self (Some (fetch_rc_params limit types show recent_changes_props
                    logevents_props before after namespaces)).

(** The parameter dict [fetch_posts] builds before it looks at
    [containers]. *)
Definition fetch_posts_params (limit : pyval) (before after : option datetime) : dict :=
  let params : dict := ∅ in
  let params := if truthy limit then <[KStr "limit" := limit]> params else params in
  let params :=
    match before with
    | Some before => <[KStr "until" := VStr (drop_last 3 (isoformat before) +:+ "Z")]> params
    | None => params
    end in
  match after with
  | Some after => <[KStr "since" := VStr (drop_last 3 (isoformat after) +:+ "Z")]> params
  | None => params
  end.

(** [j[k] = v] on a decoded object. *)
Definition json_setitem (j : json) (k : string) (v : json) : json :=
  match j with
  | JObj items => JObj (assoc_set k v items)
  | _ => j
  end.

(** [data[0]["_embedded"]["doc:posts"].extend(data[1]["_embedded"]["doc:posts"])]:
    the list [data] after the statement.  The two responses are decoded
    separately, so they share no object and only [data[0]] changes. *)
Definition extend_posts (data : list json) : result (list json) :=
  d0 ← list_getitem data 0;
  e0 ← json_getitem d0 "_embedded";
  p0 ← json_getitem e0 "doc:posts";
  l0 ← match p0 with JArr l => Ok l | _ => Err AttributeError end;
  d1 ← list_getitem data 1;
  e1 ← json_getitem d1 "_embedded";
  p1 ← json_getitem e1 "doc:posts";
  l1 ← json_iter p1;
  Ok (<[0%nat := json_setitem d0 "_embedded"
                   (json_setitem e0 "doc:posts" (JArr (l0 ++ l1)))]> data).

(** The keyword arguments of
    [self.query_nirvana(controller="DiscussionPost", method="getPosts", **params)].
    The keys of [params] are among [limit], [until], [since] and
    [containerType], so no keyword is given twice. *)
Definition nirvana_kwargs (params : dict) : dict :=
  <[KStr "controller" := VStr "DiscussionPost"]>
    (<[KStr "method" := VStr "getPosts"]> params).

(** [fetch_posts(self, *, limit=None,
      containers=["ARTICLE_COMMENT", "FORUM", "WALL"], before=None, after=None)].
    The value returned in the two-container branch is the Python list
    [data], rendered as a [JArr]. *)
Definition fetch_posts (self : t) (limit : pyval) (containers : list string)
    (before after : option datetime) : IO json :=
  let params := fetch_posts_params limit before after in
  if negb (length containers =? 2)%nat then
    params ←
      (if (length containers =? 1)%nat then
         v ← lift (dict_getitem params (KInt 0));
         mret (<[KStr "containerType" := v]> params)
       else mret params);
    query_nirvana self (nirvana_kwargs params)
  else
    let tasks :=
      map (fun c => services self "discussion" "posts"
                      (Some (params ∪ {[KStr "containerType" := VStr c]})))
          containers in
    data ← gather tasks;
    data ← lift (extend_posts data);
    mret (JArr data).

Definition default_containers : list string := ["ARTICLE_COMMENT"; "FORUM"; "WALL"].

End Wiki.

(** ** [fandom/discussions.py] *)

Module discussions.

(** Modelled from the spec: [fandom/account.py] and [fandom/page.py] are
    not among the sources.  The parent of a thread is "one of Account,
    Category, PartialPage", each giving access to its wiki; of the two
    absent classes only that [wiki] attribute is kept. *)
Record Account := { account_wiki : Wiki.t }.

Record PartialPage := { page_wiki : Wiki.t }.

Record Category := {
  category_id : Z;
  category_title : string;
  category_wiki : Wiki.t
}.

(** [Union[Account, Category, PartialPage]] *)
Inductive Parent :=
| OfAccount (a : Account)
| OfCategory (c : Category)
| OfPage (p : PartialPage).

(** [parent.wiki] *)
Definition parent_wiki (p : Parent) : Wiki.t :=
  match p with
  | OfAccount a => account_wiki a
  | OfCategory c => category_wiki c
  | OfPage p => page_wiki p
  end.

(** The dataclasses [Thread] and [Post], which refer to each other. *)
#[warnings="-register-all"]
Inductive Thread :=
| Build_Thread (id : Z) (title : option string) (parent : Parent)
    (first_post : option Post) (posts : list Post)
with Post :=
| Build_Post (id : Z) (text : string) (parent : Thread)
    (author : option Account) (timestamp : option datetime).

Definition thread_id (t : Thread) : Z :=
  match t with Build_Thread id _ _ _ _ => id end.

Definition thread_parent (t : Thread) : Parent :=
  match t with Build_Thread _ _ parent _ _ => parent end.

Definition post_id (p : Post) : Z :=
  match p with Build_Post id _ _ _ _ => id end.

Definition post_parent (p : Post) : Thread :=
  match p with Build_Post _ _ parent _ _ => parent end.

(** [Category.url] *)
Definition Category_url (self : Category) : string :=
  py_str (Wiki.url (category_wiki self)) +:+ "/f?catId=" +:+ py_str (VInt (category_id self)).

(** [Thread.url] *)
Definition Thread_url (self : Thread) : string :=
  Wiki.discussions_url (parent_wiki (thread_parent self)) (VInt (thread_id self)) VNone.

(** [Post.url] *)
Definition Post_url (self : Post) : string :=
  Wiki.discussions_url (parent_wiki (thread_parent (post_parent self)))
    (VInt (thread_id (post_parent self))) (VInt (post_id self)).

End discussions.

(** ** An invariant of the transports list *)

(** Every registered transport refers to the wiki that holds it and uses
    that wiki's session. *)
Definition transports_owned (self : Wiki.t) : Prop :=
  Forall (fun tr => discord.wiki tr = Wiki.id self
                    /\ discord.session tr = Wiki.session self)
         (Wiki.transports self).

(** ** Reading a query string *)

(** How often the character [a] occurs in [s]. *)
Fixpoint count_char (a : ascii) (s : string) : nat :=
  match s with
  | EmptyString => 0%nat
  | String c s' => ((if Ascii.eqb c a then 1 else 0) + count_char a s')%nat
  end.

(** The characters that structure a query string. *)
Definition is_delimiter (c : ascii) : Prop :=
  c = "&"%char \/ c = "="%char \/ c = "?"%char \/ c = "#"%char.

(** [int(s)] for a string of decimal digits, continuing from [acc]. *)
Fixpoint parse_dec (acc : N) (s : string) : N :=
  match s with
  | EmptyString => acc
  | String c s' => parse_dec (10 * acc + (N_of_ascii c - 48)) s'
  end.

(** ** Sample data *)

Definition dt_example : datetime :=
  {| year := 2023; month := 1; day := 1; hour := 0; minute := 0; second := 0;
     microsecond := 123456; utcoffset := None |}.

Definition dt_whole_second : datetime :=
  {| year := 2023; month := 1; day := 1; hour := 12; minute := 34; second := 56;
     microsecond := 0; utcoffset := None |}.

Definition dt_aware : datetime :=
  {| year := 2023; month := 1; day := 1; hour := 0; minute := 0; second := 0;
     microsecond := 123456; utcoffset := Some 0%Z |}.

Definition wiki_example : Wiki.t :=
  {| Wiki.id := VInt 1234;
     Wiki.url := VStr "https://example.fandom.com";
     Wiki.last_check_time := None;
     Wiki.session := {| respond := fun _ _ => Ok (JObj []) |};
     Wiki.transports := [] |}.

Definition spaced_wiki : Wiki.t :=
  {| Wiki.id := VInt 1234;
     Wiki.url := VStr "https://my wiki.example";
     Wiki.last_check_time := None;
     Wiki.session := Wiki.session wiki_example;
     Wiki.transports := [] |}.

Definition forum_response : json :=
  JObj [("_embedded",
         JObj [("count", JInt 2);
               ("doc:posts", JArr [JObj [("id", JStr "11")]; JObj [("id", JStr "12")]])]);
        ("postCount", JInt 2)].

Definition wall_response : json :=
  JObj [("_embedded", JObj [("doc:posts", JArr [JObj [("id", JStr "27")]])]);
        ("postCount", JInt 1)].

(** A remote side that answers the discussion service by container. *)
Definition discussion_session : Session :=
  {| respond := fun _ r =>
       match req_params r with
       | Some p =>
           match p !! KStr "containerType" with
           | Some (VStr c) =>
               if String.eqb c "FORUM" then Ok forum_response
               else if String.eqb c "WALL" then Ok wall_response
               else Err (ClientError "404")
           | _ => Err (ClientError "404")
           end
       | None => Err (ClientError "404")
       end |}.

Definition discussion_wiki : Wiki.t :=
  {| Wiki.id := VInt 1234;
     Wiki.url := VStr "https://example.fandom.com";
     Wiki.last_check_time := None;
     Wiki.session := discussion_session;
     Wiki.transports := [] |}.

Definition forum_wall_merged : json :=
  JObj [("_embedded",
         JObj [("count", JInt 2);
               ("doc:posts", JArr [JObj [("id", JStr "11")]; JObj [("id", JStr "12")];
                                   JObj [("id", JStr "27")]])]);
        ("postCount", JInt 2)].

Definition sample_category : discussions.Category :=
  {| discussions.category_id := 5; discussions.category_title := "General";
     discussions.category_wiki := wiki_example |}.

Definition sample_thread : discussions.Thread :=
  discussions.Build_Thread 42 (Some "Hello") (discussions.OfCategory sample_category)
    None [].

Definition sample_renamed_category : discussions.Category :=
  {| discussions.category_id := 5; discussions.category_title := "Off-topic";
     discussions.category_wiki := wiki_example |}.

Definition sample_moved_thread : discussions.Thread :=
  discussions.Build_Thread 42 None
    (discussions.OfAccount {| discussions.account_wiki := wiki_example |}) None [].

Definition sample_reply : discussions.Post :=
  discussions.Build_Post 7 "First!" sample_thread None None.

Definition sample_edited_reply : discussions.Post :=
  discussions.Build_Post 7 "First! (edited)" sample_thread None (Some dt_example).

Definition sample_zero_post : discussions.Post :=
  discussions.Build_Post 0 "Hello" sample_thread None None.

Definition null_posts_response : json :=
  JObj [("_embedded", JObj [("doc:posts", JNull)])].

(** A remote side whose answers are sound for FORUM only: the WALL request
    fails, and any other container is answered with [null] posts. *)
Definition partial_session : Session :=
  {| respond := fun _ r =>
       match req_params r with
       | Some p =>
           match p !! KStr "containerType" with
           | Some (VStr c) =>
               if String.eqb c "FORUM" then Ok forum_response
               else if String.eqb c "WALL" then Err (ClientError "503")
               else Ok null_posts_response
           | _ => Err (ClientError "404")
           end
       | None => Err (ClientError "404")
       end |}.

Definition partial_wiki : Wiki.t :=
  Wiki.init (VInt 1234) VNone None partial_session.

(** * Properties *)

#[local] Arguments String.append !_ _ / : simpl nomatch.

(** ** The library functions on sample values *)

Example isoformat_example : isoformat dt_example = "2023-01-01T00:00:00.123456".
Proof. vm_compute. reflexivity. Qed.

Example drop_example : drop_last 3 (isoformat dt_example) = "2023-01-01T00:00:00.123".
Proof. vm_compute. reflexivity. Qed.

Example urlencode_example :
  urlencode [("action", VStr "history"); ("old id", VInt 42); ("q", VStr "a&b c")]
  = "action=history&old+id=42&q=a%26b+c".
Proof. vm_compute. reflexivity. Qed.

(** ** Strings *)

Section string_facts.

Implicit Types s a b : string.

Lemma append_assoc a b s : (a +:+ b) +:+ s = a +:+ (b +:+ s).
Proof. induction a as [|c a IH]; simpl; [reflexivity | now rewrite IH]. Qed.

Lemma append_nil_r s : s +:+ "" = s.
Proof. induction s as [|c s IH]; simpl; [reflexivity | now rewrite IH]. Qed.

Lemma length_append a b :
  String.length (a +:+ b) = (String.length a + String.length b)%nat.
Proof. induction a as [|c a IH]; simpl; [reflexivity | now rewrite IH]. Qed.

Lemma substring_all s : String.substring 0 (String.length s) s = s.
Proof. induction s as [|c s IH]; simpl; [reflexivity | now rewrite IH]. Qed.

Lemma substring_none s : String.substring 0 0 s = "".
Proof. destruct s; reflexivity. Qed.

Lemma substring_append a b m :
  String.substring 0 (String.length a + m) (a +:+ b) = a +:+ String.substring 0 m b.
Proof. induction a as [|c a IH]; simpl; [reflexivity | now rewrite IH]. Qed.

(** Cutting [k] characters off [a +:+ b] only touches [b] when [b] has at
    least [k] characters. *)
Lemma drop_last_append k a b :
  (k <= String.length b)%nat -> drop_last k (a +:+ b) = a +:+ drop_last k b.
Proof.
  intros Hk. unfold drop_last. rewrite length_append.
  replace (String.length a + String.length b - k)%nat
    with (String.length a + (String.length b - k))%nat by lia.
  apply substring_append.
Qed.

Lemma drop_last_suffix k a b :
  String.length b = k -> drop_last k (a +:+ b) = a.
Proof.
  intros Hk. rewrite drop_last_append by lia.
  unfold drop_last. rewrite Hk, Nat.sub_diag, substring_none.
  apply append_nil_r.
Qed.

Lemma has_char_append c a b : has_char c (a +:+ b) = has_char c a || has_char c b.
Proof.
  induction a as [|x a IH]; simpl; [reflexivity |].
  now rewrite IH, orb_assoc.
Qed.

Lemma has_char_replace c d s : c <> d -> has_char c (replace_char c d s) = false.
Proof.
  intros Hcd. induction s as [|x s IH]; simpl; [reflexivity |].
  rewrite IH, orb_false_r.
  destruct (Ascii.eqb_spec x c) as [->|Hx].
  - apply Ascii.eqb_neq. congruence.
  - now apply Ascii.eqb_neq.
Qed.

End string_facts.

(** ** Decimal formatting *)

Section format_facts.

Lemma digit_zero : digit 0 = "0"%char.
Proof. reflexivity. Qed.

Lemma zeros_snoc k s : zeros k +:+ String "0" s = String "0" (zeros k +:+ s).
Proof. induction k as [|k IH]; simpl; [reflexivity | now rewrite IH]. Qed.

Lemma fixed_go_zero k acc : fixed_go k 0 acc = zeros k +:+ acc.
Proof.
  revert acc. induction k as [|k IH]; intros acc; simpl; [reflexivity |].
  change (0 / 10) with 0. rewrite IH, digit_zero. apply zeros_snoc.
Qed.

Lemma length_fixed_go w n acc :
  String.length (fixed_go w n acc) = (w + String.length acc)%nat.
Proof.
  revert n acc. induction w as [|w IH]; intros n acc; simpl; [reflexivity |].
  rewrite IH. simpl. lia.
Qed.

Lemma length_fixed w n : String.length (fixed w n) = w.
Proof. unfold fixed. rewrite length_fixed_go. simpl. lia. Qed.

Lemma fixed_go_acc w n acc : fixed_go w n acc = fixed w n +:+ acc.
Proof.
  unfold fixed. revert n acc. induction w as [|w IH]; intros n acc; simpl; [reflexivity |].
  rewrite (IH _ (String _ acc)), (IH _ (String _ "")).
  now rewrite append_assoc.
Qed.

(** The digits [dec_go] prints are the low digits [fixed_go] prints, up to
    leading zeros, as soon as the fuel covers the binary size of [n]. *)
Lemma dec_go_fixed k : forall fuel n acc,
  n < 10 ^ N.of_nat (S k) -> n < 2 ^ N.of_nat fuel ->
  exists z, fixed_go (S k) n acc = zeros z +:+ dec_go fuel n acc /\
            (z + String.length (dec_go fuel n acc) = S k + String.length acc)%nat.
Proof.
  induction k as [|k IH]; intros fuel n acc Hn Hf.
  - exists 0%nat. change (10 ^ N.of_nat 1) with 10 in Hn.
    apply N.ltb_lt in Hn.
    destruct fuel; simpl; rewrite ?Hn; split; reflexivity.
  - destruct (N.ltb_spec n 10) as [Hlt|Hge].
    + exists (S k).
      assert (Hdiv : n / 10 = 0) by now apply N.div_small.
      assert (Hdec : dec_go fuel n acc = String (digit n) acc).
      { destruct fuel; simpl; [reflexivity |].
        apply N.ltb_lt in Hlt. now rewrite Hlt. }
      rewrite Hdec. cbn [fixed_go]. rewrite Hdiv.
      change (0 / 10) with 0. rewrite fixed_go_zero, digit_zero, zeros_snoc.
      split; [reflexivity | simpl; lia].
    + destruct fuel as [|fuel].
      { change (2 ^ N.of_nat 0) with 1 in Hf. lia. }
      assert (Hdiv : n / 10 < 10 ^ N.of_nat (S k)).
      { apply N.Div0.div_lt_upper_bound.
        rewrite (Nat2N.inj_succ (S k)), N.pow_succ_r' in Hn. exact Hn. }
      assert (Hfuel : n / 10 < 2 ^ N.of_nat fuel).
      { apply N.Div0.div_lt_upper_bound.
        rewrite Nat2N.inj_succ, N.pow_succ_r' in Hf. lia. }
      destruct (IH fuel (n / 10) (String (digit n) acc) Hdiv Hfuel) as (z & Hz & Hlen).
      exists z. apply N.ltb_ge in Hge.
      cbn [fixed_go dec_go] in *. rewrite Hge. split; [exact Hz |].
      rewrite Hlen. simpl. lia.
Qed.

(** Within its width ["%0wd"] prints exactly the [w] low digits. *)
Lemma format_d_fixed w n : (0 < w)%nat -> n < 10 ^ N.of_nat w -> format_d w n = fixed w n.
Proof.
  intros Hw Hn. destruct w as [|k]; [lia |].
  assert (Hf : n < 2 ^ N.of_nat (N.to_nat (N.size n))).
  { rewrite N2Nat.id. apply N.size_gt. }
  destruct (dec_go_fixed k _ n "" Hn Hf) as (z & Hz & Hlen).
  unfold format_d, fixed, dec. rewrite Hz.
  simpl in Hlen.
  replace (S k - String.length (dec_go (N.to_nat (N.size n)) n ""))%nat with z by lia.
  reflexivity.
Qed.

Lemma length_format_d w n :
  (0 < w)%nat -> n < 10 ^ N.of_nat w -> String.length (format_d w n) = w.
Proof. intros Hw Hn. rewrite format_d_fixed by assumption. apply length_fixed. Qed.

(** Cutting the last three of six digits leaves the digits of the
    thousands. *)
Lemma drop_last_fixed_6 n : drop_last 3 (fixed 6 n) = fixed 3 (n / 1000).
Proof.
  unfold fixed. cbn [fixed_go]. unfold drop_last. cbn [String.length Nat.sub String.substring].
  rewrite !N.Div0.div_div. reflexivity.
Qed.

End format_facts.

(** ** [isoformat] of a naive [datetime] *)

Section isoformat_facts.

Lemma format_d_2 n : n < 100 -> format_d 2 n = fixed 2 n.
Proof. intros H. apply format_d_fixed; [lia | exact H]. Qed.

Lemma format_d_3 n : n < 1000 -> format_d 3 n = fixed 3 n.
Proof. intros H. apply format_d_fixed; [lia | exact H]. Qed.

Lemma format_d_4 n : n < 10000 -> format_d 4 n = fixed 4 n.
Proof. intros H. apply format_d_fixed; [lia | exact H]. Qed.

Lemma format_d_6 n : n < 1000000 -> format_d 6 n = fixed 6 n.
Proof. intros H. apply format_d_fixed; [lia | exact H]. Qed.

Lemma length_format_date d :
  valid_datetime d -> String.length (format_date d) = 10%nat.
Proof.
  intros (Hy & Hm & Hd & _). unfold format_date.
  rewrite format_d_4, !format_d_2 by lia.
  rewrite !length_append, !length_fixed. reflexivity.
Qed.

Variable d : datetime.
Hypothesis Hvalid : valid_datetime d.
Hypothesis Hnaive : utcoffset d = None.

(** With a whole number of seconds [isoformat] prints no fraction, and the
    slice [[:-3]] removes the seconds. *)
Lemma drop_last_isoformat_whole_second :
  microsecond d = 0 -> drop_last 3 (isoformat d) = isoformat_minutes d.
Proof.
  intros Hus. destruct Hvalid as (_ & _ & _ & Hh & Hm & Hs & _).
  unfold isoformat, isoformat_minutes, format_time.
  rewrite Hnaive, Hus. cbn [N.eqb format_offset].
  rewrite append_nil_r, !format_d_2 by lia.
  replace (format_date d +:+ "T" +:+ fixed 2 (hour d) +:+ ":" +:+
           fixed 2 (minute d) +:+ ":" +:+ fixed 2 (second d))
    with ((format_date d +:+ "T" +:+ fixed 2 (hour d) +:+ ":" +:+ fixed 2 (minute d))
          +:+ (":" +:+ fixed 2 (second d)))
    by now rewrite !append_assoc.
  apply drop_last_suffix.
  rewrite length_append, length_fixed. reflexivity.
Qed.

(** With a fraction [isoformat] prints six digits, and the slice [[:-3]]
    leaves the milliseconds. *)
Lemma drop_last_isoformat_fraction :
  microsecond d <> 0 -> drop_last 3 (isoformat d) = isoformat_milliseconds d.
Proof.
  intros Hus. destruct Hvalid as (_ & _ & _ & Hh & Hm & Hs & Hu & _).
  apply N.eqb_neq in Hus.
  unfold isoformat, isoformat_milliseconds, format_time.
  rewrite Hnaive, Hus. cbn [format_offset].
  rewrite !append_nil_r.
  assert (Hms : microsecond d / 1000 < 1000).
  { apply N.Div0.div_lt_upper_bound. lia. }
  rewrite format_d_6, format_d_3 by assumption.
  rewrite <- drop_last_fixed_6.
  rewrite <- !append_assoc.
  rewrite drop_last_append by (rewrite length_fixed; lia).
  reflexivity.
Qed.

Lemma length_isoformat_minutes : String.length (isoformat_minutes d) = 16%nat.
Proof.
  destruct Hvalid as (_ & _ & _ & Hh & Hm & _).
  unfold isoformat_minutes.
  rewrite !format_d_2 by lia.
  rewrite !length_append, !length_fixed, length_format_date by exact Hvalid.
  reflexivity.
Qed.

Lemma length_isoformat_milliseconds : String.length (isoformat_milliseconds d) = 23%nat.
Proof.
  destruct Hvalid as (_ & _ & _ & Hh & Hm & Hs & Hu & _).
  unfold isoformat_milliseconds.
  assert (Hms : microsecond d / 1000 < 1000).
  { apply N.Div0.div_lt_upper_bound. lia. }
  rewrite Hnaive, !format_d_2, format_d_3 by lia.
  rewrite !length_append, !length_fixed, length_format_date by exact Hvalid.
  reflexivity.
Qed.

Lemma isoformat_minutes_not_milliseconds :
  isoformat_minutes d +:+ "Z" <> isoformat_milliseconds d +:+ "Z".
Proof.
  intros Heq. apply (f_equal String.length) in Heq.
  rewrite !length_append, length_isoformat_minutes, length_isoformat_milliseconds in Heq.
  discriminate.
Qed.

End isoformat_facts.

(** ** The parameter dicts *)

Section params_facts.

Implicit Types (limit : pyval) (before after : option datetime) (k : key).

(** [fetch_posts] only ever sets [limit], [until] and [since] before it
    looks at the containers. *)
Lemma fetch_posts_params_keys limit before after k :
  is_Some (Wiki.fetch_posts_params limit before after !! k) ->
  k = KStr "limit" \/ k = KStr "until" \/ k = KStr "since".
Proof.
  intros [v Hv]. unfold Wiki.fetch_posts_params in Hv.
  destruct (truthy limit), before, after;
    repeat (apply lookup_insert_Some in Hv as [[<- _]|[_ Hv]]; [tauto |]);
    now rewrite lookup_empty in Hv.
Qed.

Lemma fetch_posts_params_None limit before after k :
  k <> KStr "limit" -> k <> KStr "until" -> k <> KStr "since" ->
  Wiki.fetch_posts_params limit before after !! k = None.
Proof.
  intros H1 H2 H3.
  destruct (Wiki.fetch_posts_params limit before after !! k) eqn:E; [| reflexivity].
  destruct (fetch_posts_params_keys limit before after k) as [?|[?|?]]; eauto; contradiction.
Qed.

Lemma fetch_posts_params_until limit b after :
  Wiki.fetch_posts_params limit (Some b) after !! KStr "until"
  = Some (VStr (drop_last 3 (isoformat b) +:+ "Z")).
Proof.
  unfold Wiki.fetch_posts_params.
  destruct after; rewrite ?lookup_insert_ne by discriminate; apply lookup_insert_eq.
Qed.

Lemma fetch_posts_params_since limit before a :
  Wiki.fetch_posts_params limit before (Some a) !! KStr "since"
  = Some (VStr (drop_last 3 (isoformat a) +:+ "Z")).
Proof. unfold Wiki.fetch_posts_params. apply lookup_insert_eq. Qed.

Lemma set_joined_lookup_ne name l (params : dict) k :
  k <> KStr name -> Wiki.set_joined name l params !! k = params !! k.
Proof.
  intros Hk. unfold Wiki.set_joined.
  destruct l as [[|x l]|]; try reflexivity.
  apply lookup_insert_ne. congruence.
Qed.

End params_facts.

(** Look a key up through the assignments of a parameter dict. *)
Ltac lookup_through :=
  repeat first
    [ rewrite lookup_insert_eq
    | rewrite lookup_insert_ne by discriminate
    | rewrite set_joined_lookup_ne by discriminate
    | rewrite lookup_empty ].

(** ** Coroutines *)

Section io_facts.

Context {A B : Type}.

Lemma bind_ret (a : A) (f : A -> IO B) : (mret a ≫= f) = f a.
Proof. reflexivity. Qed.

Lemma bind_raise (e : exn) (f : A -> IO B) log :
  (raise e ≫= f) log = (Err e, log).
Proof. reflexivity. Qed.

Lemma bind_lift_ok (a : A) (f : A -> IO B) : (lift (Ok a) ≫= f) = f a.
Proof. reflexivity. Qed.

Lemma bind_lift_err (e : exn) (f : A -> IO B) log :
  (lift (Err e) ≫= f) log = (Err e, log).
Proof. reflexivity. Qed.

End io_facts.

(** ** Transport registration *)

(** C7. For every transport type string other than ["discord"],
    [add_transport] fails with [InvalidTransportType] at registration time
    and leaves the wiki as it was; for ["discord"] the call succeeds and
    appends the new transport.  The failure is thus the outcome of the
    registration call itself, and it occurs exactly for the unrecognized
    types. *)
Theorem add_transport_rejects_unrecognized_type (self : Wiki.t) (type url : string) :
  (type <> "discord" ->
     Wiki.add_transport self type url = (self, Err InvalidTransportType))
  /\ (type = "discord" ->
      let tr := {| discord.wiki := Wiki.id self; discord.url := url;
                   discord.session := Wiki.session self |} in
      Wiki.add_transport self type url = (Wiki.append_transport self tr, Ok tt)
      /\ Wiki.transports (Wiki.add_transport self type url).1
         = Wiki.transports self ++ [tr])
  /\ ((Wiki.add_transport self type url).2 = Err InvalidTransportType
      <-> type <> "discord").
Proof.
  unfold Wiki.add_transport.
  destruct (String.eqb_spec type "discord") as [->|Hne]; simpl.
  - repeat split; try congruence; intros; try discriminate; try reflexivity.
  - repeat split; try congruence; intros; try contradiction; try reflexivity.
Qed.

Lemma add_transport_rejects_unrecognized_type_witness :
  Wiki.add_transport wiki_example "slack" "https://hooks.example/1"
    = (wiki_example, Err InvalidTransportType)
  /\ Wiki.transports
       (Wiki.add_transport wiki_example "discord" "https://hooks.example/1").1
     = [{| discord.wiki := VInt 1234; discord.url := "https://hooks.example/1";
           discord.session := Wiki.session wiki_example |}].
Proof.
  destruct (add_transport_rejects_unrecognized_type
              wiki_example "slack" "https://hooks.example/1") as (H1 & _ & _).
  destruct (add_transport_rejects_unrecognized_type
              wiki_example "discord" "https://hooks.example/1") as (_ & H2 & _).
  split.
  - apply H1. discriminate.
  - apply (H2 eq_refl).
Defined.

(** C10. When [add_transport] fails, the wiki it leaves behind is the wiki
    it was given: the failure is [InvalidTransportType] and the transports
    list is unchanged. *)
Theorem add_transport_failure_keeps_transports
    (self self' : Wiki.t) (type url : string) (e : exn) :
  Wiki.add_transport self type url = (self', Err e) ->
  e = InvalidTransportType /\ self' = self
  /\ Wiki.transports self' = Wiki.transports self.
Proof.
  unfold Wiki.add_transport.
  destruct (String.eqb type "discord"); intros H; inversion H; subst.
  repeat split; reflexivity.
Qed.

Lemma add_transport_failure_keeps_transports_witness :
  Wiki.add_transport wiki_example "slack" "https://hooks.example/1"
    = (wiki_example, Err InvalidTransportType)
  /\ (InvalidTransportType = InvalidTransportType /\ wiki_example = wiki_example
      /\ Wiki.transports wiki_example = Wiki.transports wiki_example).
Proof.
  split; [reflexivity |].
  apply (add_transport_failure_keeps_transports
           wiki_example wiki_example "slack" "https://hooks.example/1").
  reflexivity.
Defined.

(** ** The nirvana endpoint *)

(** With a non-empty string as url, [query_nirvana] is one GET to
    [{url}/wikia.php] whose parameters are the caller's with [format]
    overwritten. *)
Lemma query_nirvana_with_url (self : Wiki.t) (params : dict) (log : list request) (u : string) :
  Wiki.url self = VStr u -> u <> "" ->
  let r := {| req_url := u +:+ "/wikia.php";
              req_params := Some (<[KStr "format" := VStr "json"]> params) |} in
  Wiki.query_nirvana self params log = (respond (Wiki.session self) log r, log ++ [r]).
Proof.
  intros Hu Hne. unfold Wiki.query_nirvana, Wiki.url_plus. rewrite Hu.
  assert (Ht : truthy (VStr u) = true).
  { simpl. apply negb_true_iff, String.eqb_neq, Hne. }
  rewrite Ht. reflexivity.
Qed.

(** C6. [query_nirvana] fails when the wiki's base URL is unset ([None]) or
    empty: it raises [RuntimeError("Wiki url is required to do this")],
    the exception the spec files under ConfigurationError, and issues no
    request.  When the URL is a non-empty string, exactly one GET to
    [{url}/wikia.php] is issued; its parameters are the caller's with
    [format] set to ["json"], whatever [format] the caller supplied. *)
Theorem query_nirvana_requires_url_and_forces_json
    (self : Wiki.t) (params : dict) (log : list request) :
  (Wiki.url self = VNone \/ Wiki.url self = VStr "" ->
     Wiki.query_nirvana self params log
     = (Err (RuntimeError "Wiki url is required to do this"), log))
  /\ (forall u, Wiki.url self = VStr u -> u <> "" ->
      let p : dict := <[KStr "format" := VStr "json"]> params in
      let r := {| req_url := u +:+ "/wikia.php"; req_params := Some p |} in
      Wiki.query_nirvana self params log = (respond (Wiki.session self) log r, log ++ [r])
      /\ p !! KStr "format" = Some (VStr "json")
      /\ forall k, k <> KStr "format" -> p !! k = params !! k).
Proof.
  split.
  - intros [H|H]; unfold Wiki.query_nirvana; rewrite H; reflexivity.
  - intros u Hu Hne p r. split; [now apply query_nirvana_with_url |]. split.
    + apply lookup_insert_eq.
    + intros k Hk. apply lookup_insert_ne. congruence.
Qed.

Lemma query_nirvana_requires_url_and_forces_json_witness :
  Wiki.query_nirvana
    {| Wiki.id := VInt 1234; Wiki.url := VStr ""; Wiki.last_check_time := None;
       Wiki.session := Wiki.session wiki_example; Wiki.transports := [] |}
    {[ KStr "format" := VStr "xml" ]} []
  = (Err (RuntimeError "Wiki url is required to do this"), [])
  /\ (Wiki.query_nirvana wiki_example {[ KStr "format" := VStr "xml" ]} []).2
     = [{| req_url := "https://example.fandom.com/wikia.php";
           req_params := Some {[ KStr "format" := VStr "json" ]} |}].
Proof.
  split.
  - apply query_nirvana_requires_url_and_forces_json. right. reflexivity.
  - destruct (query_nirvana_requires_url_and_forces_json
                wiki_example {[ KStr "format" := VStr "xml" ]} []) as [_ H].
    destruct (H "https://example.fandom.com" eq_refl ltac:(discriminate)) as (-> & _ & _).
    cbn [snd app]. rewrite insert_singleton_eq. reflexivity.
Defined.

(** Any falsy url is refused, not only [None] and the empty string. *)
Lemma query_nirvana_falsy_url (self : Wiki.t) (params : dict) (log : list request) :
  truthy (Wiki.url self) = false ->
  Wiki.query_nirvana self params log
  = (Err (RuntimeError "Wiki url is required to do this"), log).
Proof. intros H. unfold Wiki.query_nirvana. rewrite H. reflexivity. Qed.

(** ** [fetch_posts]: choice of the endpoint *)

(** Outside the one- and two-container cases [fetch_posts] is a single
    call of [query_nirvana]. *)
Lemma fetch_posts_nirvana (self : Wiki.t) (limit : pyval) (containers : list string)
    (before after : option datetime) :
  length containers <> 1%nat -> length containers <> 2%nat ->
  Wiki.fetch_posts self limit containers before after
  = Wiki.query_nirvana self
      (Wiki.nirvana_kwargs (Wiki.fetch_posts_params limit before after)).
Proof.
  intros H1 H2. unfold Wiki.fetch_posts.
  apply Nat.eqb_neq in H1, H2. rewrite H1, H2. reflexivity.
Qed.

(** C1.  With exactly one container, [fetch_posts] raises [KeyError(0)]:
    the subscript [params[0]] looks the integer 0 up in a dict whose keys
    are strings.  No request is issued, so the single call filtered by
    [containerType] that the branch is written for never happens. *)
Theorem fetch_posts_one_container_raises
    (self : Wiki.t) (limit : pyval) (c : string)
    (before after : option datetime) (log : list request) :
  Wiki.fetch_posts self limit [c] before after log = (Err (KeyError (KInt 0)), log).
Proof.
  unfold Wiki.fetch_posts, dict_getitem. cbn [length Nat.eqb negb].
  rewrite fetch_posts_params_None by discriminate.
  reflexivity.
Qed.

(** C3.  When the number of containers is neither 1 nor 2, as with the
    default full set, [fetch_posts] is one call of [query_nirvana] with
    [controller=DiscussionPost], [method=getPosts] and no [containerType];
    on a wiki with a url this is exactly one GET to [{url}/wikia.php], and
    no request goes to the services endpoint. *)
Theorem fetch_posts_full_set_single_nirvana_call
    (self : Wiki.t) (limit : pyval) (containers : list string)
    (before after : option datetime) :
  length containers <> 1%nat -> length containers <> 2%nat ->
  let kwargs := Wiki.nirvana_kwargs (Wiki.fetch_posts_params limit before after) in
  Wiki.fetch_posts self limit containers before after = Wiki.query_nirvana self kwargs
  /\ kwargs !! KStr "controller" = Some (VStr "DiscussionPost")
  /\ kwargs !! KStr "method" = Some (VStr "getPosts")
  /\ kwargs !! KStr "containerType" = None
  /\ forall u log, Wiki.url self = VStr u -> u <> "" ->
       let p : dict := <[KStr "format" := VStr "json"]> kwargs in
       let r := {| req_url := u +:+ "/wikia.php"; req_params := Some p |} in
       Wiki.fetch_posts self limit containers before after log
       = (respond (Wiki.session self) log r, log ++ [r])
       /\ p !! KStr "controller" = Some (VStr "DiscussionPost")
       /\ p !! KStr "method" = Some (VStr "getPosts")
       /\ p !! KStr "containerType" = None.
Proof.
  intros H1 H2 kwargs.
  assert (Hfetch : Wiki.fetch_posts self limit containers before after
                   = Wiki.query_nirvana self kwargs)
    by now apply fetch_posts_nirvana.
  assert (Hct : kwargs !! KStr "containerType" = None).
  { unfold kwargs, Wiki.nirvana_kwargs. lookup_through.
    apply fetch_posts_params_None; discriminate. }
  assert (Hc : kwargs !! KStr "controller" = Some (VStr "DiscussionPost")).
  { unfold kwargs, Wiki.nirvana_kwargs. now lookup_through. }
  assert (Hm : kwargs !! KStr "method" = Some (VStr "getPosts")).
  { unfold kwargs, Wiki.nirvana_kwargs. now lookup_through. }
  split; [exact Hfetch |]. split; [exact Hc |]. split; [exact Hm |].
  split; [exact Hct |].
  intros u log Hu Hne p r. rewrite Hfetch.
  split; [now apply query_nirvana_with_url |].
  unfold p. rewrite !lookup_insert_ne by discriminate. auto.
Qed.

Lemma fetch_posts_full_set_single_nirvana_call_witness :
  Wiki.fetch_posts wiki_example VNone Wiki.default_containers None None
  = Wiki.query_nirvana wiki_example
      (Wiki.nirvana_kwargs (Wiki.fetch_posts_params VNone None None))
  /\ (Wiki.fetch_posts wiki_example VNone Wiki.default_containers None None []).2
     = [{| req_url := "https://example.fandom.com/wikia.php";
           req_params := Some (<[KStr "format" := VStr "json"]>
                                (<[KStr "controller" := VStr "DiscussionPost"]>
                                  (<[KStr "method" := VStr "getPosts"]> ∅))) |}].
Proof.
  destruct (fetch_posts_full_set_single_nirvana_call
              wiki_example VNone Wiki.default_containers None None)
    as (H1 & _ & _ & _ & H2); [simpl; lia | simpl; lia |].
  split; [exact H1 |].
  destruct (H2 "https://example.fandom.com" [] eq_refl ltac:(discriminate)) as (-> & _).
  reflexivity.
Defined.

(** ** [fetch_rc] *)

Section fetch_rc_facts.

Variables (self : Wiki.t) (limit : pyval).
Variables (types show recent_changes_props logevents_props : option (list string)).
Variables (before after : option datetime) (namespaces : option (list pyval)).

Let params : dict :=
  Wiki.fetch_rc_params limit types show recent_changes_props logevents_props
    before after namespaces.

Let fetch : IO json :=
  Wiki.fetch_rc self limit types show recent_changes_props logevents_props
    before after namespaces.

(** [fetch_rc] is one call of [api] with the dict it built; on a wiki whose
    url is a string this is one GET to [{url}/api.php] carrying the dict. *)
Lemma fetch_rc_request :
  fetch = Wiki.api self (Some params)
  /\ forall u log, Wiki.url self = VStr u ->
       let r := {| req_url := u +:+ "/api.php"; req_params := Some params |} in
       fetch log = (respond (Wiki.session self) log r, log ++ [r]).
Proof.
  split; [reflexivity |].
  intros u log Hu r. unfold fetch, Wiki.fetch_rc, Wiki.api, Wiki.url_plus.
  rewrite Hu. reflexivity.
Qed.

(** C5.  In every call of [fetch_rc], a supplied [before] is sent as both
    [rcstart] and [lestart] and a supplied [after] as both [rcend] and
    [leend], each as [isoformat()] of the timestamp followed by a literal
    [Z]; the dict carrying them is the one handed to [api]. *)
Theorem fetch_rc_time_bounds :
  (forall b, before = Some b ->
     params !! KStr "rcstart" = Some (VStr (isoformat b +:+ "Z"))
     /\ params !! KStr "lestart" = Some (VStr (isoformat b +:+ "Z")))
  /\ (forall a, after = Some a ->
        params !! KStr "rcend" = Some (VStr (isoformat a +:+ "Z"))
        /\ params !! KStr "leend" = Some (VStr (isoformat a +:+ "Z")))
  /\ fetch = Wiki.api self (Some params)
  /\ forall u log, Wiki.url self = VStr u ->
       let r := {| req_url := u +:+ "/api.php"; req_params := Some params |} in
       fetch log = (respond (Wiki.session self) log r, log ++ [r]).
Proof.
  split; [| split; [| exact fetch_rc_request]].
  - intros b ->. unfold params, Wiki.fetch_rc_params.
    destruct namespaces as [[|n ns]|]; split; now lookup_through.
  - intros a ->. unfold params, Wiki.fetch_rc_params.
    destruct namespaces as [[|n ns]|], before; split; now lookup_through.
Qed.

(** C9, as the code has it.  The test is [if limit:], so a limit is sent
    exactly when it is truthy: then [rclimit] and [lelimit] both carry that
    same value; when [limit] is [None] or any other falsy value, 0
    included, neither parameter is in the request. *)
Theorem fetch_rc_limit :
  (truthy limit = true ->
     params !! KStr "rclimit" = Some limit /\ params !! KStr "lelimit" = Some limit)
  /\ (truthy limit = false ->
        params !! KStr "rclimit" = None /\ params !! KStr "lelimit" = None)
  /\ fetch = Wiki.api self (Some params).
Proof.
  split; [| split; [| reflexivity]].
  - intros Ht. unfold params, Wiki.fetch_rc_params. rewrite Ht.
    destruct namespaces as [[|n ns]|], before, after; split; now lookup_through.
  - intros Ht. unfold params, Wiki.fetch_rc_params. rewrite Ht.
    destruct namespaces as [[|n ns]|], before, after; split; now lookup_through.
Qed.

End fetch_rc_facts.

(** ** [fetch_posts]: the two-container branch *)

Section assoc_facts.

Context {A : Type}.
Implicit Types (items : list (string * A)) (k : string) (v : A).

Lemma assoc_set_eq k v items :
  is_Some (assoc k items) -> assoc k (assoc_set k v items) = Some v.
Proof.
  induction items as [|[k' v'] items IH]; simpl; intros [w Hw]; [discriminate |].
  destruct (String.eqb_spec k k') as [->|Hne]; simpl.
  - now rewrite String.eqb_refl.
  - apply String.eqb_neq in Hne. rewrite Hne. apply IH. eauto.
Qed.

Lemma assoc_set_ne k k' v items :
  k' <> k -> assoc k' (assoc_set k v items) = assoc k' items.
Proof.
  intros Hne. induction items as [|[k0 v0] items IH]; simpl; [reflexivity |].
  destruct (String.eqb_spec k k0) as [->|Hk]; simpl.
  - apply String.eqb_neq in Hne. now rewrite Hne.
  - now rewrite IH.
Qed.

End assoc_facts.

Lemma json_getitem_setitem_eq (j v w : json) (k : string) :
  json_getitem j k = Ok w -> json_getitem (Wiki.json_setitem j k v) k = Ok v.
Proof.
  destruct j; simpl; try discriminate.
  destruct (assoc k items) eqn:E; [| discriminate]. intros _.
  rewrite assoc_set_eq; [reflexivity | rewrite E; eauto].
Qed.

Lemma json_getitem_setitem_ne (j v : json) (k k' : string) :
  k' <> k -> json_getitem (Wiki.json_setitem j k v) k' = json_getitem j k'.
Proof.
  intros Hne. destruct j; simpl; try reflexivity.
  now rewrite assoc_set_ne.
Qed.

(** The dict literal [{"containerType": c, **params}] is [params] with one
    more entry, since [params] has no [containerType] of its own. *)
Lemma container_params (limit : pyval) (before after : option datetime) (c : string) :
  Wiki.fetch_posts_params limit before after ∪ {[KStr "containerType" := VStr c]}
  = <[KStr "containerType" := VStr c]> (Wiki.fetch_posts_params limit before after).
Proof.
  symmetry. apply insert_union_singleton_r.
  apply fetch_posts_params_None; discriminate.
Qed.

(** C2.  With two containers [c1], [c2], [fetch_posts] issues one GET to the
    discussion service per container, each carrying that container as
    [containerType] next to the common parameters.  When both answers hold
    a post list under [_embedded] / [doc:posts], the first answer is
    updated in place to hold the first list followed by the second, in
    that order, and keeps its other entries.  What the call returns is the
    two-element list [data] of both answers, not the merged first answer:
    the value returned has no [_embedded] entry to read. *)
Theorem fetch_posts_two_containers_returns_both
    (self : Wiki.t) (limit : pyval) (c1 c2 : string)
    (before after : option datetime) (log : list request)
    (d0 d1 e0 e1 : json) (l0 l1 : list json) :
  let params := Wiki.fetch_posts_params limit before after in
  let u := "https://services.fandom.com/" +:+ "discussion" +:+ "/" +:+
           py_str (Wiki.id self) +:+ "/" +:+ "posts" in
  let r1 := {| req_url := u;
               req_params := Some (<[KStr "containerType" := VStr c1]> params) |} in
  let r2 := {| req_url := u;
               req_params := Some (<[KStr "containerType" := VStr c2]> params) |} in
  respond (Wiki.session self) log r1 = Ok d0 ->
  respond (Wiki.session self) (log ++ [r1]) r2 = Ok d1 ->
  json_getitem d0 "_embedded" = Ok e0 ->
  json_getitem e0 "doc:posts" = Ok (JArr l0) ->
  json_getitem d1 "_embedded" = Ok e1 ->
  json_getitem e1 "doc:posts" = Ok (JArr l1) ->
  exists merged em,
    Wiki.fetch_posts self limit [c1; c2] before after log
    = (Ok (JArr [merged; d1]), log ++ [r1; r2])
    /\ json_getitem merged "_embedded" = Ok em
    /\ json_getitem em "doc:posts" = Ok (JArr (l0 ++ l1))
    /\ (forall k, k <> "_embedded" -> json_getitem merged k = json_getitem d0 k)
    /\ (forall k, k <> "doc:posts" -> json_getitem em k = json_getitem e0 k)
    /\ json_getitem (JArr [merged; d1]) "_embedded" = Err TypeError.
Proof.
  intros params u r1 r2 H1 H2 He0 Hp0 He1 Hp1.
  exists (Wiki.json_setitem d0 "_embedded"
            (Wiki.json_setitem e0 "doc:posts" (JArr (l0 ++ l1)))),
         (Wiki.json_setitem e0 "doc:posts" (JArr (l0 ++ l1))).
  split; [| split; [| split; [| split; [| split]]]].
  - unfold Wiki.fetch_posts. cbn [length Nat.eqb negb map].
    rewrite !container_params.
    unfold mbind, IO_bind, gather, Wiki.services. cbn [run_tasks].
    unfold get_json. fold params. fold u. fold r1. rewrite H1.
    fold r2. rewrite H2. cbn [collect].
    unfold lift, Wiki.extend_posts, list_getitem. cbn [lookup list_lookup].
    unfold mbind at 1, result_bind. rewrite He0.
    unfold mbind at 1. rewrite Hp0.
    unfold mbind at 1. unfold mbind at 1. unfold mbind at 1. rewrite He1.
    unfold mbind at 1. rewrite Hp1.
    unfold mbind at 1. cbn [json_iter].
    rewrite <- app_assoc. reflexivity.
  - eapply json_getitem_setitem_eq, He0.
  - eapply json_getitem_setitem_eq, Hp0.
  - intros k Hk. now apply json_getitem_setitem_ne.
  - intros k Hk. now apply json_getitem_setitem_ne.
  - reflexivity.
Qed.

Example fetch_posts_forum_wall :
  Wiki.fetch_posts discussion_wiki VNone ["FORUM"; "WALL"] None None []
  = (Ok (JArr [forum_wall_merged; wall_response]),
     [{| req_url := "https://services.fandom.com/discussion/1234/posts";
         req_params := Some {[KStr "containerType" := VStr "FORUM"]} |};
      {| req_url := "https://services.fandom.com/discussion/1234/posts";
         req_params := Some {[KStr "containerType" := VStr "WALL"]} |}]).
Proof. vm_compute. reflexivity. Qed.

Lemma fetch_posts_two_containers_returns_both_witness :
  exists merged em,
    Wiki.fetch_posts discussion_wiki VNone ["FORUM"; "WALL"] None None []
    = (Ok (JArr [merged; wall_response]),
       [] ++
       [{| req_url := "https://services.fandom.com/discussion/1234/posts";
           req_params := Some (<[KStr "containerType" := VStr "FORUM"]> ∅) |};
        {| req_url := "https://services.fandom.com/discussion/1234/posts";
           req_params := Some (<[KStr "containerType" := VStr "WALL"]> ∅) |}])
    /\ json_getitem merged "_embedded" = Ok em
    /\ json_getitem em "doc:posts"
       = Ok (JArr ([JObj [("id", JStr "11")]; JObj [("id", JStr "12")]]
                   ++ [JObj [("id", JStr "27")]]))
    /\ json_getitem (JArr [merged; wall_response]) "_embedded" = Err TypeError.
Proof.
  destruct (fetch_posts_two_containers_returns_both
              discussion_wiki VNone "FORUM" "WALL" None None []
              forum_response wall_response
              (JObj [("count", JInt 2);
                     ("doc:posts",
                      JArr [JObj [("id", JStr "11")]; JObj [("id", JStr "12")]])])
              (JObj [("doc:posts", JArr [JObj [("id", JStr "27")]])])
              [JObj [("id", JStr "11")]; JObj [("id", JStr "12")]]
              [JObj [("id", JStr "27")]]
              eq_refl eq_refl eq_refl eq_refl eq_refl eq_refl)
    as (merged & em & Hrun & He & Hp & _ & _ & Hty).
  exists merged, em. repeat split; assumption.
Defined.

(** ** [fetch_posts]: the time bounds *)

(** X24.  For a naive timestamp whose microseconds are not zero,
    [fetch_posts] sends as [until] and [since] the ISO-8601 form cut to
    milliseconds, followed by [Z]. *)
Lemma fetch_posts_fraction_timestamp
    (limit : pyval) (d : datetime) (other : option datetime) :
  valid_datetime d -> utcoffset d = None -> microsecond d <> 0 ->
  Wiki.fetch_posts_params limit (Some d) other !! KStr "until"
    = Some (VStr (isoformat_milliseconds d +:+ "Z"))
  /\ Wiki.fetch_posts_params limit other (Some d) !! KStr "since"
     = Some (VStr (isoformat_milliseconds d +:+ "Z")).
Proof.
  intros Hv Hn Hus.
  rewrite fetch_posts_params_until, fetch_posts_params_since.
  now rewrite drop_last_isoformat_fraction.
Qed.

(** C4.  [fetch_posts] sends [isoformat()[:-3] + "Z"] as [until] and
    [since].  For a naive timestamp with a whole number of seconds
    [isoformat()] prints no fraction, so the slice removes the seconds: the
    parameter is the form cut to the minute followed by [Z], which differs
    from the millisecond form followed by [Z]; and this is the value the
    request to the nirvana endpoint carries. *)
Theorem fetch_posts_whole_second_timestamp
    (limit : pyval) (d : datetime) (other : option datetime) :
  valid_datetime d -> utcoffset d = None -> microsecond d = 0 ->
  Wiki.fetch_posts_params limit (Some d) other !! KStr "until"
    = Some (VStr (isoformat_minutes d +:+ "Z"))
  /\ Wiki.fetch_posts_params limit other (Some d) !! KStr "since"
     = Some (VStr (isoformat_minutes d +:+ "Z"))
  /\ isoformat_minutes d +:+ "Z" <> isoformat_milliseconds d +:+ "Z"
  /\ forall (self : Wiki.t) (containers : list string) (u : string) (log : list request),
       length containers <> 1%nat -> length containers <> 2%nat ->
       Wiki.url self = VStr u -> u <> "" ->
       exists p : dict,
         let r := {| req_url := u +:+ "/wikia.php"; req_params := Some p |} in
         Wiki.fetch_posts self limit containers (Some d) other log
         = (respond (Wiki.session self) log r, log ++ [r])
         /\ p !! KStr "until" = Some (VStr (isoformat_minutes d +:+ "Z")).
Proof.
  intros Hv Hn Hus.
  assert (Hu : Wiki.fetch_posts_params limit (Some d) other !! KStr "until"
               = Some (VStr (isoformat_minutes d +:+ "Z"))).
  { rewrite fetch_posts_params_until.
    now rewrite drop_last_isoformat_whole_second. }
  split; [exact Hu |]. split; [| split].
  - rewrite fetch_posts_params_since.
    now rewrite drop_last_isoformat_whole_second.
  - now apply isoformat_minutes_not_milliseconds.
  - intros self containers u log H1 H2 Hurl Hne.
    eexists. cbn zeta. split.
    + rewrite fetch_posts_nirvana by assumption.
      now apply query_nirvana_with_url.
    + unfold Wiki.nirvana_kwargs. now rewrite !lookup_insert_ne by discriminate.
Qed.

Lemma dt_whole_second_valid : valid_datetime dt_whole_second.
Proof. unfold valid_datetime. simpl. lia. Qed.

Lemma fetch_posts_whole_second_timestamp_witness :
  Wiki.fetch_posts_params VNone (Some dt_whole_second) None !! KStr "until"
    = Some (VStr "2023-01-01T12:34Z")
  /\ Wiki.fetch_posts_params VNone None (Some dt_whole_second) !! KStr "since"
     = Some (VStr "2023-01-01T12:34Z")
  /\ "2023-01-01T12:34Z" <> "2023-01-01T12:34:56.000Z"
  /\ exists p : dict,
       (Wiki.fetch_posts wiki_example VNone Wiki.default_containers
          (Some dt_whole_second) None []).2
       = [{| req_url := "https://example.fandom.com/wikia.php"; req_params := Some p |}]
       /\ p !! KStr "until" = Some (VStr "2023-01-01T12:34Z").
Proof.
  destruct (fetch_posts_whole_second_timestamp VNone dt_whole_second None
              dt_whole_second_valid eq_refl eq_refl) as (Hu & Hs & Hne & Hrun).
  split; [exact Hu |]. split; [exact Hs |]. split; [exact Hne |].
  destruct (Hrun wiki_example Wiki.default_containers "https://example.fandom.com" [])
    as (p & Hp & Hl); try discriminate; try reflexivity.
  exists p. split; [| exact Hl].
  cbn zeta in Hp. rewrite Hp. reflexivity.
Defined.

Lemma fetch_rc_time_bounds_witness :
  let params :=
    Wiki.fetch_rc_params VNone None None None None
      (Some dt_example) (Some dt_whole_second) None in
  (params !! KStr "rcstart" = Some (VStr "2023-01-01T00:00:00.123456Z")
   /\ params !! KStr "lestart" = Some (VStr "2023-01-01T00:00:00.123456Z"))
  /\ (params !! KStr "rcend" = Some (VStr "2023-01-01T12:34:56Z")
      /\ params !! KStr "leend" = Some (VStr "2023-01-01T12:34:56Z"))
  /\ Wiki.fetch_rc wiki_example VNone None None None None
       (Some dt_example) (Some dt_whole_second) None []
     = (Ok (JObj []),
        [{| req_url := "https://example.fandom.com/api.php";
            req_params := Some params |}]).
Proof.
  intros params.
  destruct (fetch_rc_time_bounds wiki_example VNone None None None None
              (Some dt_example) (Some dt_whole_second) None)
    as (Hb & Ha & _ & Hrun).
  split; [exact (Hb dt_example eq_refl) |].
  split; [exact (Ha dt_whole_second eq_refl) |].
  exact (Hrun "https://example.fandom.com" [] eq_refl).
Defined.

Lemma fetch_rc_limit_witness :
  let sent := Wiki.fetch_rc_params (VInt 50) None None None None None None None in
  let bare := Wiki.fetch_rc_params VNone None None None None None None None in
  (sent !! KStr "rclimit" = Some (VInt 50) /\ sent !! KStr "lelimit" = Some (VInt 50))
  /\ (bare !! KStr "rclimit" = None /\ bare !! KStr "lelimit" = None).
Proof.
  intros sent bare. split.
  - apply (fetch_rc_limit wiki_example (VInt 50) None None None None None None None).
    reflexivity.
  - apply (fetch_rc_limit wiki_example VNone None None None None None None None).
    reflexivity.
Defined.

(** C9, as stated, fails for the limit 0: it is supplied, and the request
    carries neither [rclimit] nor [lelimit]. *)
Lemma fetch_rc_zero_limit_not_sent :
  let params := Wiki.fetch_rc_params (VInt 0) None None None None None None None in
  VInt 0 <> VNone
  /\ params !! KStr "rclimit" <> Some (VInt 0)
  /\ params !! KStr "lelimit" <> Some (VInt 0)
  /\ params !! KStr "rclimit" = None
  /\ params !! KStr "lelimit" = None.
Proof. repeat split; discriminate. Qed.

(** ** [url_to] *)

Section url_facts.

Lemma has_space_quoted_char (c : ascii) :
  has_space (if always_safe c || has_char c "" then String c "" else percent_hex c)
  = false.
Proof. destruct c as [[] [] [] [] [] [] [] []]; reflexivity. Qed.

(** [quote] with no extra safe character lets no space through. *)
Lemma has_space_quote (s : string) : has_space (quote "" s) = false.
Proof.
  induction s as [|c s IH]; [reflexivity |].
  cbn [quote]. unfold has_space in *.
  rewrite has_char_append, IH, orb_false_r.
  apply has_space_quoted_char.
Qed.

Lemma has_space_quote_plus (s : string) : has_space (quote_plus s) = false.
Proof.
  unfold quote_plus. destruct (has_space s).
  - apply has_char_replace. discriminate.
  - apply has_space_quote.
Qed.

Lemma has_space_join (sep : string) (l : list string) :
  has_space sep = false -> Forall (fun s => has_space s = false) l ->
  has_space (join sep l) = false.
Proof.
  intros Hsep Hl. induction Hl as [|x l Hx Hl IH]; [reflexivity |].
  cbn [join]. destruct l as [|y l]; [exact Hx |].
  unfold has_space in *. rewrite !has_char_append, Hx, Hsep, IH. reflexivity.
Qed.

Lemma has_space_urlencode (query : list (string * pyval)) :
  has_space (urlencode query) = false.
Proof.
  unfold urlencode. apply has_space_join; [reflexivity |].
  apply Forall_map, Forall_forall. intros [k v] _. cbn [fst snd].
  unfold has_space. rewrite !has_char_append.
  fold (has_space (quote_plus k)). fold (has_space (quote_plus (py_str v))).
  now rewrite !has_space_quote_plus.
Qed.

Lemma has_space_underscored (s : string) : has_space (replace_char " " "_" s) = false.
Proof. apply has_char_replace. discriminate. Qed.

End url_facts.

Section url_to_facts.

Variables (self : Wiki.t) (page : string) (params : list (string * pyval)).

Let base : string := py_str (Wiki.url self).
Let page' : string := replace_char " " "_" page.
Let query : string :=
  match params with
  | [] => ""
  | _ :: _ => "?" +:+ urlencode params
  end.

Lemma has_space_query : has_space query = false.
Proof.
  unfold query. destruct params as [|kv rest]; [reflexivity |].
  unfold has_space. rewrite has_char_append.
  apply has_space_urlencode.
Qed.

(** C8, as the code has it.  [url_to] replaces the spaces of the page and
    of a non-empty namespace by underscores; a non-empty namespace is put
    in front of the page, followed by [:], while an absent or empty one
    adds nothing; [?] and the encoded query string follow exactly when
    [params] is not empty.  Nothing after the wiki's base url contains a
    space, so the URL is free of spaces whenever the base url is. *)
Theorem url_to_shape (namespace : option string) :
  (forall ns, namespace = Some ns -> ns <> "" ->
     Wiki.url_to self page namespace params
     = base +:+ "/wiki/" +:+ replace_char " " "_" ns +:+ ":" +:+ page' +:+ query
     /\ has_space ("/wiki/" +:+ replace_char " " "_" ns +:+ ":" +:+ page' +:+ query) = false)
  /\ (namespace = None \/ namespace = Some "" ->
      Wiki.url_to self page namespace params = base +:+ "/wiki/" +:+ page' +:+ query
      /\ has_space ("/wiki/" +:+ page' +:+ query) = false)
  /\ (query = "" <-> params = [])
  /\ (has_space base = false ->
      has_space (Wiki.url_to self page namespace params) = false).
Proof.
  assert (Hq := has_space_query).
  assert (Hp : has_space page' = false) by apply has_space_underscored.
  assert (Hsome : forall ns, ns <> "" ->
            Wiki.url_to self page (Some ns) params
            = base +:+ "/wiki/" +:+ replace_char " " "_" ns +:+ ":" +:+ page' +:+ query).
  { intros ns Hns. unfold Wiki.url_to, query, base, page'.
    destruct ns as [|c ns]; [contradiction |].
    destruct params; rewrite ?append_assoc, ?append_nil_r; reflexivity. }
  assert (Hnone : forall namespace, namespace = None \/ namespace = Some "" ->
            Wiki.url_to self page namespace params = base +:+ "/wiki/" +:+ page' +:+ query).
  { intros namespace' [-> | ->]; unfold Wiki.url_to, query, base, page';
      destruct params; rewrite ?append_assoc, ?append_nil_r; reflexivity. }
  assert (Hrest1 : forall ns,
            has_space ("/wiki/" +:+ replace_char " " "_" ns +:+ ":" +:+ page' +:+ query) = false).
  { intros ns. unfold has_space in *. rewrite !has_char_append, Hp, Hq.
    fold (has_space (replace_char " " "_" ns)). now rewrite has_space_underscored. }
  assert (Hrest2 : has_space ("/wiki/" +:+ page' +:+ query) = false).
  { unfold has_space in *. now rewrite !has_char_append, Hp, Hq. }
  split; [| split; [| split]].
  - intros ns -> Hns. split; [now apply Hsome | apply Hrest1].
  - intros H. split; [now apply Hnone | exact Hrest2].
  - unfold query. destruct params; split; intros H; try reflexivity; discriminate.
  - intros Hb. destruct namespace as [[|c ns]|].
    + rewrite Hnone by auto. unfold has_space in *.
      rewrite has_char_append, Hb. exact Hrest2.
    + rewrite Hsome by discriminate. unfold has_space in *.
      rewrite has_char_append, Hb. apply Hrest1.
    + rewrite Hnone by auto. unfold has_space in *.
      rewrite has_char_append, Hb. exact Hrest2.
Qed.

End url_to_facts.

Lemma url_to_shape_witness :
  Wiki.url_to wiki_example "Main Page" (Some "User talk")
    [("action", VStr "history"); ("old id", VInt 42)]
  = "https://example.fandom.com/wiki/User_talk:Main_Page?action=history&old+id=42"
  /\ Wiki.url_to wiki_example "Main Page" None [] = "https://example.fandom.com/wiki/Main_Page"
  /\ has_space
       (Wiki.url_to wiki_example "Main Page" (Some "User talk")
          [("action", VStr "history"); ("old id", VInt 42)]) = false.
Proof.
  destruct (url_to_shape wiki_example "Main Page"
              [("action", VStr "history"); ("old id", VInt 42)] (Some "User talk"))
    as (H1 & _ & _ & H4).
  destruct (url_to_shape wiki_example "Main Page" [] None) as (_ & H2 & _ & _).
  split; [| split].
  - exact (proj1 (H1 "User talk" eq_refl ltac:(discriminate))).
  - exact (proj1 (H2 (or_introl eq_refl))).
  - exact (H4 eq_refl).
Defined.

(** C8, as stated, fails twice: an empty namespace is given and yet no
    [:] prefix is written, and a space of the wiki's base url is copied
    into the URL. *)
Lemma url_to_empty_namespace_and_spaced_base :
  Wiki.url_to wiki_example "Main Page" (Some "") []
    = "https://example.fandom.com/wiki/Main_Page"
  /\ Wiki.url_to wiki_example "Main Page" (Some "") []
     <> "https://example.fandom.com/wiki/" +:+ replace_char " " "_" "" +:+ ":" +:+ "Main_Page"
  /\ has_space (Wiki.url_to spaced_wiki "Main Page" None []) = true.
Proof. repeat split; discriminate. Qed.

(** ** Runs on sample values *)

Example fetch_posts_forum_only :
  Wiki.fetch_posts wiki_example VNone ["FORUM"] None None []
  = (Err (KeyError (KInt 0)), []).
Proof. vm_compute. reflexivity. Qed.

Example fetch_posts_default_whole_second :
  Wiki.fetch_posts wiki_example VNone Wiki.default_containers
    (Some dt_whole_second) (Some dt_example) []
  = (Ok (JObj []),
     [{| req_url := "https://example.fandom.com/wikia.php";
         req_params :=
           Some (<[KStr "controller" := VStr "DiscussionPost"]>
                  (<[KStr "method" := VStr "getPosts"]>
                    (<[KStr "format" := VStr "json"]>
                      (<[KStr "until" := VStr "2023-01-01T12:34Z"]>
                        (<[KStr "since" := VStr "2023-01-01T00:00:00.123Z"]> ∅))))) |}]).
Proof. vm_compute. reflexivity. Qed.

Example fetch_posts_aware_timestamp :
  Wiki.fetch_posts_params VNone (Some dt_aware) None !! KStr "until"
  = Some (VStr "2023-01-01T00:00:00.123456+00Z").
Proof. vm_compute. reflexivity. Qed.

Example fetch_rc_same_instant :
  Wiki.fetch_rc_params VNone None None None None None (Some dt_example) None !! KStr "rcend"
  = Some (VStr "2023-01-01T00:00:00.123456Z").
Proof. vm_compute. reflexivity. Qed.

(** * Further properties of the endpoint calls and the fetchers *)

(** ** [api] *)

(** X1.  [api] has no guard on the url: for every string url, the empty one
    included, it issues exactly one GET to [url + "/api.php"] with the
    parameters it was given and yields what the session yields; for a url
    that is not a string it raises [TypeError] before any request. *)
Theorem api_one_get_or_type_error
    (self : Wiki.t) (params : option dict) (log : list request) :
  (forall u, Wiki.url self = VStr u ->
     let r := {| req_url := u +:+ "/api.php"; req_params := params |} in
     Wiki.api self params log = (respond (Wiki.session self) log r, log ++ [r]))
  /\ ((forall u, Wiki.url self <> VStr u) ->
      Wiki.api self params log = (Err TypeError, log)).
Proof.
  unfold Wiki.api, Wiki.url_plus. split.
  - intros u ->. reflexivity.
  - intros Hno. destruct (Wiki.url self) as [| b | z | u]; try reflexivity.
    now destruct (Hno u).
Qed.

Lemma api_one_get_or_type_error_witness :
  Wiki.api (Wiki.init (VInt 1) (VStr "") None (Wiki.session wiki_example)) None []
    = (Ok (JObj []), [{| req_url := "/api.php"; req_params := None |}])
  /\ Wiki.api (Wiki.init (VInt 1) VNone None (Wiki.session wiki_example)) None []
     = (Err TypeError, []).
Proof.
  split.
  - exact (proj1 (api_one_get_or_type_error
                    (Wiki.init (VInt 1) (VStr "") None (Wiki.session wiki_example))
                    None []) "" eq_refl).
  - apply (proj2 (api_one_get_or_type_error
                    (Wiki.init (VInt 1) VNone None (Wiki.session wiki_example))
                    None [])).
    intros u. discriminate.
Defined.

(** ** The parameters of [fetch_rc] *)

Section fetch_rc_params_facts.

Variables (limit : pyval).
Variables (types show recent_changes_props logevents_props : option (list string)).
Variables (before after : option datetime) (namespaces : option (list pyval)).

Let params : dict :=
  Wiki.fetch_rc_params limit types show recent_changes_props logevents_props
    before after namespaces.

(** X2.  Whatever the arguments, the request of [fetch_rc] carries
    [action=query], [list=recentchanges|logevents] and [format=json]: no
    optional argument can overwrite them. *)
Theorem fetch_rc_fixed_params :
  params !! KStr "action" = Some (VStr "query")
  /\ params !! KStr "list" = Some (VStr "recentchanges|logevents")
  /\ params !! KStr "format" = Some (VStr "json").
Proof.
  unfold params, Wiki.fetch_rc_params.
  destruct (truthy limit), namespaces as [[|n ns]|], before, after;
    repeat split; now lookup_through.
Qed.



(** X4.  The time bounds of [fetch_rc] are sent exactly when they are
    given: without [before] there is neither [rcstart] nor [lestart], and
    without [after] neither [rcend] nor [leend]. *)
Theorem fetch_rc_bounds_lookup :
  let stamp (d : option datetime) := (fun d => VStr (isoformat d +:+ "Z")) <$> d in
  params !! KStr "rcstart" = stamp before
  /\ params !! KStr "lestart" = stamp before
  /\ params !! KStr "rcend" = stamp after
  /\ params !! KStr "leend" = stamp after.
Proof.
  intros stamp. unfold params, Wiki.fetch_rc_params.
  repeat split;
    destruct (truthy limit), namespaces as [[|n ns]|], before, after;
    now lookup_through.
Qed.

End fetch_rc_params_facts.

Lemma set_joined_lookup_Some name l (p : dict) k v :
  Wiki.set_joined name l p !! k = Some v -> k = KStr name \/ p !! k = Some v.
Proof.
  unfold Wiki.set_joined. destruct l as [[|x l]|]; auto.
  intros H. apply lookup_insert_Some in H as [[<- _]|[_ H]]; auto.
Qed.

(** X5.  [fetch_rc] never sends a parameter outside a fixed list of
    fourteen names. *)
Theorem fetch_rc_params_keys (limit : pyval)
    (types show recent_changes_props logevents_props : option (list string))
    (before after : option datetime) (namespaces : option (list pyval)) (k : key) :
  is_Some (Wiki.fetch_rc_params limit types show recent_changes_props
             logevents_props before after namespaces !! k) ->
  In k (map KStr ["action"; "list"; "format"; "rclimit"; "lelimit"; "rctype";
                  "rcshow"; "rcprop"; "leprop"; "rcend"; "leend"; "rcstart";
                  "lestart"; "namespaces"]).
Proof.
  intros [v Hv]. unfold Wiki.fetch_rc_params in Hv. cbn [map In].
  destruct (truthy limit), namespaces as [[|n ns]|], before, after;
    repeat first
      [ apply lookup_insert_Some in Hv as [[<- _]|[_ Hv]]; [tauto |]
      | apply set_joined_lookup_Some in Hv as [->|Hv]; [tauto |] ];
    now rewrite lookup_empty in Hv.
Qed.

Lemma fetch_rc_params_keys_witness :
  is_Some (Wiki.fetch_rc_params (VInt 50) None None None None None None None
             !! KStr "rclimit")
  /\ In (KStr "rclimit")
        (map KStr ["action"; "list"; "format"; "rclimit"; "lelimit"; "rctype";
                   "rcshow"; "rcprop"; "leprop"; "rcend"; "leend"; "rcstart";
                   "lestart"; "namespaces"]).
Proof.
  assert (H : is_Some (Wiki.fetch_rc_params (VInt 50) None None None None None None None
                         !! KStr "rclimit")) by (exists (VInt 50); reflexivity).
  split; [exact H |].
  exact (fetch_rc_params_keys (VInt 50) None None None None None None None _ H).
Defined.

(** ** The parameters of [fetch_posts] *)

(** X6.  The common parameters of [fetch_posts] are fully determined by its
    arguments: [limit] is sent exactly when it is truthy, [until] exactly
    when [before] is given, [since] exactly when [after] is given, and
    there is no other parameter. *)
Theorem fetch_posts_params_lookup
    (limit : pyval) (before after : option datetime) (k : key) :
  let params := Wiki.fetch_posts_params limit before after in
  let stamp (d : option datetime) :=
    (fun d => VStr (drop_last 3 (isoformat d) +:+ "Z")) <$> d in
  params !! KStr "limit" = (if truthy limit then Some limit else None)
  /\ params !! KStr "until" = stamp before
  /\ params !! KStr "since" = stamp after
  /\ (k <> KStr "limit" -> k <> KStr "until" -> k <> KStr "since" ->
      params !! k = None).
Proof.
  intros params stamp. unfold params.
  split; [| split; [| split]].
  - unfold Wiki.fetch_posts_params.
    destruct (truthy limit), before, after; now lookup_through.
  - unfold Wiki.fetch_posts_params.
    destruct (truthy limit), before, after; now lookup_through.
  - unfold Wiki.fetch_posts_params.
    destruct (truthy limit), before, after; now lookup_through.
  - apply fetch_posts_params_None.
Qed.

Lemma fetch_posts_params_lookup_witness :
  Wiki.fetch_posts_params (VInt 0) None (Some dt_example) !! KStr "limit" = None
  /\ Wiki.fetch_posts_params (VInt 0) None (Some dt_example) !! KStr "since"
     = Some (VStr "2023-01-01T00:00:00.123Z")
  /\ Wiki.fetch_posts_params (VInt 0) None (Some dt_example) !! KStr "containerType"
     = None.
Proof.
  destruct (fetch_posts_params_lookup (VInt 0) None (Some dt_example)
              (KStr "containerType")) as (Hl & _ & Hs & Hk).
  split; [exact Hl |]. split; [exact Hs |].
  apply Hk; discriminate.
Defined.

Lemma dt_example_valid : valid_datetime dt_example.
Proof. unfold valid_datetime. simpl. lia. Qed.

Lemma fetch_posts_fraction_timestamp_witness :
  Wiki.fetch_posts_params VNone (Some dt_example) None !! KStr "until"
    = Some (VStr "2023-01-01T00:00:00.123Z")
  /\ Wiki.fetch_posts_params VNone None (Some dt_example) !! KStr "since"
     = Some (VStr "2023-01-01T00:00:00.123Z").
Proof.
  apply (fetch_posts_fraction_timestamp VNone dt_example None dt_example_valid eq_refl).
  discriminate.
Defined.

Lemma length_substring_prefix (m : nat) (s : string) :
  String.length (String.substring 0 m s) = Nat.min m (String.length s).
Proof.
  revert m. induction s as [|c s IH]; intros [|m]; simpl; try reflexivity.
  now rewrite IH.
Qed.

Lemma length_drop_last (k : nat) (s : string) :
  String.length (drop_last k s) = (String.length s - k)%nat.
Proof. unfold drop_last. rewrite length_substring_prefix. lia. Qed.

Lemma isoformat_nonempty (d : datetime) : (0 < String.length (isoformat d))%nat.
Proof. unfold isoformat. rewrite !length_append. simpl. lia. Qed.

Lemma fetch_rc_params_rcstart (d : datetime) (limit : pyval)
    (types show recent_changes_props logevents_props : option (list string))
    (after : option datetime) (namespaces : option (list pyval)) :
  Wiki.fetch_rc_params limit types show recent_changes_props logevents_props
    (Some d) after namespaces !! KStr "rcstart"
  = Some (VStr (isoformat d +:+ "Z")).
Proof.
  unfold Wiki.fetch_rc_params.
  destruct namespaces as [[|n ns]|]; now lookup_through.
Qed.

(** X7.  The two fetchers never encode a timestamp the same way: for every
    [datetime] the value [fetch_rc] sends as [rcstart] differs from the
    value [fetch_posts] sends as [until]. *)
Theorem fetch_rc_and_fetch_posts_encode_differently
    (d : datetime) (limit limit' : pyval)
    (types show recent_changes_props logevents_props : option (list string))
    (after after' : option datetime) (namespaces : option (list pyval)) :
  Wiki.fetch_rc_params limit types show recent_changes_props logevents_props
    (Some d) after namespaces !! KStr "rcstart"
  <> Wiki.fetch_posts_params limit' (Some d) after' !! KStr "until".
Proof.
  rewrite fetch_posts_params_until, fetch_rc_params_rcstart. intros H.
  injection H as H. apply (f_equal String.length) in H.
  rewrite !length_append, length_drop_last in H.
  pose proof (isoformat_nonempty d). lia.
Qed.

Lemma fetch_rc_and_fetch_posts_encode_differently_witness :
  Some (VStr "2023-01-01T00:00:00.123456Z") <> Some (VStr "2023-01-01T00:00:00.123Z").
Proof.
  exact (fetch_rc_and_fetch_posts_encode_differently dt_example VNone VNone
           None None None None None None None).
Defined.

(** ** [fetch_posts]: failures *)

(** X8.  Outside the one- and two-container cases [fetch_posts] needs the
    base url: when the url is falsy the call raises the [RuntimeError] of
    [query_nirvana] and no request is issued. *)
Theorem fetch_posts_nirvana_requires_url
    (self : Wiki.t) (limit : pyval) (containers : list string)
    (before after : option datetime) (log : list request) :
  length containers <> 1%nat -> length containers <> 2%nat ->
  truthy (Wiki.url self) = false ->
  Wiki.fetch_posts self limit containers before after log
  = (Err (RuntimeError "Wiki url is required to do this"), log).
Proof.
  intros H1 H2 Hu. rewrite fetch_posts_nirvana by assumption.
  now apply query_nirvana_falsy_url.
Qed.

Lemma fetch_posts_nirvana_requires_url_witness :
  Wiki.fetch_posts (Wiki.init (VInt 1) VNone None (Wiki.session wiki_example))
    VNone Wiki.default_containers None None []
  = (Err (RuntimeError "Wiki url is required to do this"), []).
Proof.
  apply fetch_posts_nirvana_requires_url; [discriminate | discriminate | reflexivity].
Defined.

Section two_containers.

Variables (self : Wiki.t) (limit : pyval) (c1 c2 : string).
Variables (before after : option datetime) (log : list request).

Let params : dict := Wiki.fetch_posts_params limit before after.
Let u : string :=
  "https://services.fandom.com/" +:+ "discussion" +:+ "/" +:+
  py_str (Wiki.id self) +:+ "/" +:+ "posts".
Let r1 : request :=
  {| req_url := u; req_params := Some (<[KStr "containerType" := VStr c1]> params) |}.
Let r2 : request :=
  {| req_url := u; req_params := Some (<[KStr "containerType" := VStr c2]> params) |}.
Let a1 : result json := respond (Wiki.session self) log r1.
Let a2 : result json := respond (Wiki.session self) (log ++ [r1]) r2.

(** The two-container branch in one equation: both requests are issued,
    whatever they yield, and the outcome is computed from the two answers. *)
Lemma fetch_posts_two_run :
  Wiki.fetch_posts self limit [c1; c2] before after log
  = (data ← collect [a1; a2]; data ← Wiki.extend_posts data; Ok (JArr data),
     log ++ [r1; r2]).
Proof.
  unfold Wiki.fetch_posts. cbn [length Nat.eqb negb map].
  rewrite !container_params.
  unfold mbind, IO_bind, result_bind, gather, Wiki.services. cbn [run_tasks].
  unfold get_json. fold params. fold u. fold r1. fold a1. fold r2. fold a2.
  rewrite <- app_assoc. cbn [app].
  destruct (collect [a1; a2]) as [data|e]; [| reflexivity].
  unfold lift. destruct (Wiki.extend_posts data); reflexivity.
Qed.


(** X10.  With two containers, an answer without [_embedded], or whose
    [_embedded] has no [doc:posts], makes [fetch_posts] raise [KeyError]
    with that key, after both requests were issued. *)
Theorem fetch_posts_two_containers_missing_key (d0 d1 : json) :
  a1 = Ok d0 -> a2 = Ok d1 ->
  let lacks (j : json) (k : string) :=
    exists items, j = JObj items /\ assoc k items = None in
  let fails (k : string) :=
    Wiki.fetch_posts self limit [c1; c2] before after log
    = (Err (KeyError (KStr k)), log ++ [r1; r2]) in
  (lacks d0 "_embedded" -> fails "_embedded")
  /\ (forall e0, json_getitem d0 "_embedded" = Ok e0 ->
        lacks e0 "doc:posts" -> fails "doc:posts")
  /\ (forall e0 l0, json_getitem d0 "_embedded" = Ok e0 ->
        json_getitem e0 "doc:posts" = Ok (JArr l0) ->
        lacks d1 "_embedded" -> fails "_embedded")
  /\ (forall e0 l0 e1, json_getitem d0 "_embedded" = Ok e0 ->
        json_getitem e0 "doc:posts" = Ok (JArr l0) ->
        json_getitem d1 "_embedded" = Ok e1 ->
        lacks e1 "doc:posts" -> fails "doc:posts").
Proof.
  intros H1 H2 lacks fails. unfold fails, lacks.
  rewrite fetch_posts_two_run, H1, H2. cbn [collect].
  unfold Wiki.extend_posts, list_getitem, mbind, result_bind.
  cbn [lookup list_lookup].
  split; [| split; [| split]].
  - intros (items & -> & Hk). cbn [json_getitem]. rewrite Hk. reflexivity.
  - intros e0 He0 (items & -> & Hk). rewrite He0. cbn [json_getitem]. rewrite Hk.
    reflexivity.
  - intros e0 l0 He0 Hp0 (items & -> & Hk). rewrite He0, Hp0. cbn [json_getitem].
    rewrite Hk. reflexivity.
  - intros e0 l0 e1 He0 Hp0 He1 (items & -> & Hk). rewrite He0, Hp0, He1.
    cbn [json_getitem]. rewrite Hk. reflexivity.
Qed.

(** X11.  With two containers, [doc:posts] of the first answer must be a
    list and [doc:posts] of the second must be iterable: any other first
    value raises [AttributeError] (it has no [extend]), and a second value
    that is [null], a boolean or a number raises [TypeError]. *)
Theorem fetch_posts_two_containers_wrong_type (d0 d1 e0 p0 : json) :
  a1 = Ok d0 -> a2 = Ok d1 ->
  json_getitem d0 "_embedded" = Ok e0 ->
  json_getitem e0 "doc:posts" = Ok p0 ->
  ((forall l, p0 <> JArr l) ->
     Wiki.fetch_posts self limit [c1; c2] before after log
     = (Err AttributeError, log ++ [r1; r2]))
  /\ (forall l0 e1 p1, p0 = JArr l0 ->
        json_getitem d1 "_embedded" = Ok e1 ->
        json_getitem e1 "doc:posts" = Ok p1 ->
        (p1 = JNull \/ (exists b, p1 = JBool b) \/ (exists z, p1 = JInt z)
         \/ (exists x, p1 = JFloat x)) ->
        Wiki.fetch_posts self limit [c1; c2] before after log
        = (Err TypeError, log ++ [r1; r2])).
Proof.
  intros H1 H2 He0 Hp0.
  rewrite fetch_posts_two_run, H1, H2. cbn [collect].
  unfold Wiki.extend_posts, list_getitem, mbind, result_bind.
  cbn [lookup list_lookup]. rewrite He0, Hp0.
  split.
  - intros Hno. destruct p0; try reflexivity. now destruct (Hno l).
  - intros l0 e1 p1 -> He1 Hp1 Hty. rewrite He1, Hp1.
    destruct Hty as [-> | [[b ->] | [[z ->] | [x ->]]]]; reflexivity.
Qed.

End two_containers.

(** X12.  The two-container branch never reads the base url: two wikis
    with the same id and session run the same requests to the same
    outcome, whatever their urls, so the branch also works where
    [query_nirvana] refuses to. *)
Theorem fetch_posts_two_containers_ignores_url
    (self self' : Wiki.t) (limit : pyval) (c1 c2 : string)
    (before after : option datetime) (log : list request) :
  Wiki.id self = Wiki.id self' -> Wiki.session self = Wiki.session self' ->
  Wiki.fetch_posts self limit [c1; c2] before after log
  = Wiki.fetch_posts self' limit [c1; c2] before after log.
Proof.
  intros Hid Hs. rewrite !fetch_posts_two_run. now rewrite Hid, Hs.
Qed.


Lemma fetch_posts_two_containers_missing_key_witness :
  (Wiki.fetch_posts wiki_example VNone ["FORUM"; "WALL"] None None []).1
  = Err (KeyError (KStr "_embedded")).
Proof.
  destruct (fetch_posts_two_containers_missing_key
              wiki_example VNone "FORUM" "WALL" None None [] (JObj []) (JObj [])
              eq_refl eq_refl) as [H _].
  rewrite H; [reflexivity |].
  exists []. split; reflexivity.
Defined.

Lemma fetch_posts_two_containers_wrong_type_witness :
  (Wiki.fetch_posts partial_wiki VNone ["ARTICLE_COMMENT"; "FORUM"] None None []).1
    = Err AttributeError
  /\ (Wiki.fetch_posts partial_wiki VNone ["FORUM"; "ARTICLE_COMMENT"] None None []).1
     = Err TypeError.
Proof.
  destruct (fetch_posts_two_containers_wrong_type
              partial_wiki VNone "ARTICLE_COMMENT" "FORUM" None None []
              null_posts_response forum_response
              (JObj [("doc:posts", JNull)]) JNull
              eq_refl eq_refl eq_refl eq_refl) as [H1 _].
  destruct (fetch_posts_two_containers_wrong_type
              partial_wiki VNone "FORUM" "ARTICLE_COMMENT" None None []
              forum_response null_posts_response
              (JObj [("count", JInt 2);
                     ("doc:posts",
                      JArr [JObj [("id", JStr "11")]; JObj [("id", JStr "12")]])])
              (JArr [JObj [("id", JStr "11")]; JObj [("id", JStr "12")]])
              eq_refl eq_refl eq_refl eq_refl) as [_ H2].
  split.
  - rewrite H1; [reflexivity | discriminate].
  - rewrite (H2 _ (JObj [("doc:posts", JNull)]) JNull eq_refl eq_refl eq_refl);
      [reflexivity | now left].
Defined.

Lemma fetch_posts_two_containers_ignores_url_witness :
  Wiki.fetch_posts discussion_wiki VNone ["FORUM"; "WALL"] None None []
  = Wiki.fetch_posts (Wiki.init (VInt 1234) VNone None discussion_session)
      VNone ["FORUM"; "WALL"] None None [].
Proof.
  apply fetch_posts_two_containers_ignores_url; reflexivity.
Defined.

(** ** [add_transport]: what a registration keeps *)

(** X13.  Whether it succeeds or fails, [add_transport] leaves the wiki's
    id, url, checkpoint and session alone and never removes or reorders a
    transport: the old list is a prefix of the new one, which has at most
    one more element. *)
Theorem add_transport_keeps_wiki (self : Wiki.t) (type url : string) :
  let self' := (Wiki.add_transport self type url).1 in
  Wiki.id self' = Wiki.id self
  /\ Wiki.url self' = Wiki.url self
  /\ Wiki.last_check_time self' = Wiki.last_check_time self
  /\ Wiki.session self' = Wiki.session self
  /\ exists new, Wiki.transports self' = Wiki.transports self ++ new
                 /\ (length new <= 1)%nat
                 /\ (new = [] <-> (Wiki.add_transport self type url).2
                                  = Err InvalidTransportType).
Proof.
  unfold Wiki.add_transport. destruct (String.eqb type "discord"); cbn.
  - repeat split; try reflexivity.
    eexists [_]. repeat split; try reflexivity; try (cbn; lia); discriminate.
  - repeat split; try reflexivity.
    exists []. rewrite app_nil_r. repeat split; cbn; lia.
Qed.

(** X14.  A wiki made by [__init__] has no transport, and registrations
    keep the invariant that every transport of a wiki refers to that wiki
    and shares its session. *)
Theorem add_transport_keeps_transports_owned :
  (forall wiki_id url last_check_time session,
     Wiki.transports (Wiki.init wiki_id url last_check_time session) = []
     /\ transports_owned (Wiki.init wiki_id url last_check_time session))
  /\ (forall self type url,
        transports_owned self ->
        transports_owned (Wiki.add_transport self type url).1).
Proof.
  split.
  - intros. split; [reflexivity | apply Forall_nil_2].
  - intros self type url Hown. unfold transports_owned, Wiki.add_transport in *.
    destruct (String.eqb type "discord"); cbn; [| exact Hown].
    apply Forall_app. split; [exact Hown |].
    apply Forall_cons. split; [split; reflexivity | apply Forall_nil_2].
Qed.

Lemma add_transport_keeps_transports_owned_witness :
  transports_owned
    (Wiki.add_transport
       (Wiki.add_transport (Wiki.init (VInt 7) (VStr "https://w.example") None
                              discussion_session)
          "discord" "https://hooks.example/1").1
       "discord" "https://hooks.example/2").1.
Proof.
  destruct add_transport_keeps_transports_owned as [Hinit Hstep].
  apply Hstep, Hstep, Hinit.
Defined.

Lemma add_transport_keeps_wiki_witness :
  Wiki.url (Wiki.add_transport wiki_example "discord" "https://hooks.example/1").1
    = VStr "https://example.fandom.com"
  /\ length (Wiki.transports
               (Wiki.add_transport wiki_example "slack" "https://hooks.example/1").1)
     = 0%nat.
Proof.
  destruct (add_transport_keeps_wiki wiki_example "discord" "https://hooks.example/1")
    as (_ & Hu & _).
  destruct (add_transport_keeps_wiki wiki_example "slack" "https://hooks.example/1")
    as (_ & _ & _ & _ & new & Hnew & _ & Hiff).
  split; [exact Hu |].
  rewrite Hnew, (proj2 Hiff eq_refl). reflexivity.
Defined.

(** ** The url builders *)

Section url_builders.

Variable self : Wiki.t.

Lemma replace_char_idempotent (a b : ascii) (s : string) :
  a <> b -> replace_char a b (replace_char a b s) = replace_char a b s.
Proof.
  intros Hab. induction s as [|c s IH]; simpl; [reflexivity |].
  rewrite IH. f_equal.
  destruct (Ascii.eqb_spec c a) as [->|Hc].
  - assert (Hba : Ascii.eqb b a = false) by (apply Ascii.eqb_neq; congruence).
    now rewrite Hba.
  - apply Ascii.eqb_neq in Hc. now rewrite Hc.
Qed.

(** X15.  [url_to] does not tell a space from an underscore: a page and a
    namespace written with underscores give the URL of the same names
    written with spaces. *)
Theorem url_to_underscores (page : string) (namespace : option string)
    (params : list (string * pyval)) :
  Wiki.url_to self (replace_char " " "_" page)
    (replace_char " " "_" <$> namespace) params
  = Wiki.url_to self page namespace params.
Proof.
  unfold Wiki.url_to.
  rewrite (replace_char_idempotent " " "_" page) by discriminate.
  destruct namespace as [[|c ns]|]; cbn [fmap option_fmap option_map];
    try reflexivity.
  pose proof (replace_char_idempotent " " "_" (String c ns)) as Hns.
  cbn [replace_char] in *. rewrite Hns by discriminate. reflexivity.
Qed.

(** X16.  [tag_url] treats spaces and underscores alike as well, and what
    it appends to the base url contains no space. *)
Theorem tag_url_underscores (article_name : string) :
  Wiki.tag_url self (replace_char " " "_" article_name) = Wiki.tag_url self article_name
  /\ exists rest, Wiki.tag_url self article_name = py_str (Wiki.url self) +:+ rest
                  /\ has_space rest = false.
Proof.
  unfold Wiki.tag_url. split.
  - now rewrite replace_char_idempotent by discriminate.
  - exists ("/f/t/" +:+ replace_char " " "_" article_name). split; [reflexivity |].
    unfold has_space. rewrite has_char_append.
    fold (has_space (replace_char " " "_" article_name)).
    now rewrite has_space_underscored.
Qed.

(** X17.  The URL of a reply extends the URL of its thread: with a truthy
    [reply_id], [discussions_url] is the thread URL followed by [/r/] and
    the reply id; with no reply id, or the reply id 0, it is the thread
    URL itself. *)
Theorem discussions_url_reply (thread_id reply_id : pyval) :
  (truthy reply_id = true ->
     Wiki.discussions_url self thread_id reply_id
     = Wiki.discussions_url self thread_id VNone +:+ "/r/" +:+ py_str reply_id)
  /\ (truthy reply_id = false ->
      Wiki.discussions_url self thread_id reply_id
      = Wiki.discussions_url self thread_id VNone).
Proof.
  unfold Wiki.discussions_url. cbn [truthy].
  split; intros ->; reflexivity.
Qed.

End url_builders.

Lemma discussions_url_reply_witness :
  Wiki.discussions_url wiki_example (VInt 42) (VInt 7)
    = "https://example.fandom.com/f/42/r/7"
  /\ Wiki.discussions_url wiki_example (VInt 42) (VInt 0)
     = "https://example.fandom.com/f/42".
Proof.
  destruct (discussions_url_reply wiki_example (VInt 42) (VInt 7)) as [H1 _].
  destruct (discussions_url_reply wiki_example (VInt 42) (VInt 0)) as [_ H2].
  split.
  - exact (H1 eq_refl).
  - exact (H2 eq_refl).
Defined.

(** ** The query string of [url_to] *)

Section query_facts.

Lemma count_char_append (c : ascii) (a b : string) :
  count_char c (a +:+ b) = (count_char c a + count_char c b)%nat.
Proof. induction a as [|x a IH]; simpl; [reflexivity | rewrite IH; lia]. Qed.

Lemma count_char_replace (c a b : ascii) (s : string) :
  c <> a -> c <> b -> count_char c (replace_char a b s) = count_char c s.
Proof.
  intros Ha Hb. induction s as [|x s IH]; simpl; [reflexivity |].
  rewrite IH. f_equal.
  destruct (Ascii.eqb_spec x a) as [->|Hx]; [| reflexivity].
  apply not_eq_sym, Ascii.eqb_neq in Ha, Hb. now rewrite Ha, Hb.
Qed.

Lemma count_quoted_char (c : ascii) (keep_space : bool) (x : ascii) :
  is_delimiter c ->
  count_char c (if always_safe x || has_char x (if keep_space then " " else "")
                then String x "" else percent_hex x) = 0%nat.
Proof.
  intros [-> | [-> | [-> | ->]]];
    destruct keep_space, x as [[] [] [] [] [] [] [] []]; reflexivity.
Qed.

Lemma count_quote (c : ascii) (keep_space : bool) (s : string) :
  is_delimiter c -> count_char c (quote (if keep_space then " " else "") s) = 0%nat.
Proof.
  intros Hc. induction s as [|x s IH]; [reflexivity |].
  cbn [quote]. rewrite count_char_append, IH, count_quoted_char by assumption.
  reflexivity.
Qed.

(** [quote_plus] escapes every delimiter. *)
Lemma count_quote_plus (c : ascii) (s : string) :
  is_delimiter c -> count_char c (quote_plus s) = 0%nat.
Proof.
  intros Hc. unfold quote_plus. destruct (has_space s).
  - rewrite count_char_replace.
    + apply (count_quote c true s Hc).
    + destruct Hc as [-> | [-> | [-> | ->]]]; discriminate.
    + destruct Hc as [-> | [-> | [-> | ->]]]; discriminate.
  - apply (count_quote c false s Hc).
Qed.

Lemma count_urlencode (c : ascii) (query : list (string * pyval)) :
  is_delimiter c ->
  count_char c (urlencode query)
  = ((if Ascii.eqb c "=" then length query else 0)
     + (if Ascii.eqb c "&" then length query - 1 else 0))%nat.
Proof.
  intros Hc. unfold urlencode.
  induction query as [|[k v] query IH]; [now destruct Hc as [-> | [-> | [-> | ->]]] |].
  cbn [map join fst snd].
  destruct query as [|kv' query].
  - cbn [map length]. rewrite !count_char_append, !count_quote_plus by assumption.
    destruct Hc as [-> | [-> | [-> | ->]]]; reflexivity.
  - remember (kv' :: query) as rest. cbn [length].
    assert (Hlen : (length rest = S (length query))%nat) by (subst; reflexivity).
    replace (map (fun kv => quote_plus kv.1 +:+ "=" +:+ quote_plus (py_str kv.2)) rest)
      with ((fun kv => quote_plus kv.1 +:+ "=" +:+ quote_plus (py_str kv.2)) kv'
            :: map (fun kv => quote_plus kv.1 +:+ "=" +:+ quote_plus (py_str kv.2)) query)
      in * by (subst; reflexivity).
    rewrite !count_char_append, IH, !count_quote_plus by assumption.
    destruct Hc as [-> | [-> | [-> | ->]]]; cbn; lia.
Qed.

(** X18.  With parameters, [url_to] is the URL without parameters followed
    by [?] and the query string.  Keys and values are escaped, so the query
    string has exactly one [=] per parameter, one [&] between consecutive
    parameters, and neither [?] nor [#] nor a space. *)
Theorem url_to_query (self : Wiki.t) (page : string) (namespace : option string)
    (params : list (string * pyval)) :
  params <> [] ->
  Wiki.url_to self page namespace params
  = Wiki.url_to self page namespace [] +:+ "?" +:+ urlencode params
  /\ count_char "=" (urlencode params) = length params
  /\ count_char "&" (urlencode params) = (length params - 1)%nat
  /\ count_char "?" (urlencode params) = 0%nat
  /\ count_char "#" (urlencode params) = 0%nat
  /\ has_space (urlencode params) = false.
Proof.
  intros Hne. split.
  - unfold Wiki.url_to. destruct params; [contradiction | reflexivity].
  - rewrite !count_urlencode by (unfold is_delimiter; tauto).
    cbn. repeat split; try lia. apply has_space_urlencode.
Qed.

End query_facts.

Lemma url_to_query_witness :
  Wiki.url_to wiki_example "Main Page" None [("q", VStr "a&b=c d?#"); ("n", VInt 2)]
  = "https://example.fandom.com/wiki/Main_Page" +:+ "?" +:+ "q=a%26b%3Dc+d%3F%23&n=2"
  /\ count_char "&" "q=a%26b%3Dc+d%3F%23&n=2" = 1%nat.
Proof.
  destruct (url_to_query wiki_example "Main Page" None
              [("q", VStr "a&b=c d?#"); ("n", VInt 2)]) as (H1 & _ & H3 & _);
    [discriminate |].
  split; [exact H1 | exact H3].
Defined.

(** ** Integers in URLs *)

Section decimal_facts.

Lemma N_of_digit (n : N) : N_of_ascii (digit n) = 48 + n mod 10.
Proof.
  unfold digit. apply N_ascii_embedding.
  pose proof (N.mod_upper_bound n 10). lia.
Qed.

Lemma parse_dec_append (acc : N) (a b : string) :
  parse_dec acc (a +:+ b) = parse_dec (parse_dec acc a) b.
Proof. revert acc. induction a as [|c a IH]; intros acc; simpl; [reflexivity | apply IH]. Qed.

Lemma parse_dec_zeros (z : nat) (s : string) : parse_dec 0 (zeros z +:+ s) = parse_dec 0 s.
Proof. induction z as [|z IH]; simpl; [reflexivity | exact IH]. Qed.

Lemma fixed_succ (w : nat) (n : N) :
  fixed (S w) n = fixed w (n / 10) +:+ String (digit n) "".
Proof. unfold fixed at 1. cbn [fixed_go]. apply fixed_go_acc. Qed.

(** Reading back the [w] low digits of [n] gives [n] modulo [10 ^ w]. *)
Lemma parse_dec_fixed (w : nat) : forall (n acc : N),
  parse_dec acc (fixed w n) = acc * 10 ^ N.of_nat w + n mod 10 ^ N.of_nat w.
Proof.
  induction w as [|w IH]; intros n acc.
  - cbn. rewrite N.mod_1_r. lia.
  - rewrite fixed_succ, parse_dec_append, IH. cbn [parse_dec].
    rewrite N_of_digit, Nat2N.inj_succ, N.pow_succ_r'.
    rewrite (N.Div0.mod_mul_r n 10 (10 ^ N.of_nat w)).
    generalize ((n / 10) mod 10 ^ N.of_nat w) (n mod 10) (10 ^ N.of_nat w).
    intros q r p. nia.
Qed.

(** [int(str(n)) = n] for a natural number. *)
Lemma parse_dec_dec (n : N) : parse_dec 0 (dec n) = n.
Proof.
  assert (Hn : n < 10 ^ N.of_nat (S (N.to_nat n))).
  { rewrite Nat2N.inj_succ, N2Nat.id.
    apply N.lt_le_trans with (10 ^ n).
    - apply N.pow_gt_lin_r. lia.
    - apply N.pow_le_mono_r; lia. }
  assert (Hf : n < 2 ^ N.of_nat (N.to_nat (N.size n))).
  { rewrite N2Nat.id. apply N.size_gt. }
  destruct (dec_go_fixed (N.to_nat n) _ n "" Hn Hf) as (z & Hz & _).
  unfold dec. rewrite <- (parse_dec_zeros z), <- Hz.
  fold (fixed (S (N.to_nat n)) n). rewrite parse_dec_fixed.
  rewrite N.mod_small by exact Hn. lia.
Qed.

Lemma dec_inj (a b : N) : dec a = dec b -> a = b.
Proof. intros H. rewrite <- (parse_dec_dec a), <- (parse_dec_dec b). now rewrite H. Qed.

(** A character that is not a digit does not occur in [dec n]. *)
Lemma count_char_dec_go (c : ascii) (fuel : nat) : forall (n : N) (acc : string),
  (N_of_ascii c < 48 \/ 57 < N_of_ascii c) ->
  count_char c (dec_go fuel n acc) = count_char c acc.
Proof.
  assert (Hd : forall n, (N_of_ascii c < 48 \/ 57 < N_of_ascii c) ->
                         Ascii.eqb (digit n) c = false).
  { intros n Hc. apply Ascii.eqb_neq. intros <-.
    rewrite N_of_digit in Hc.
    assert (Hm : n mod 10 < 10) by (apply N.mod_upper_bound; discriminate).
    revert Hc Hm. generalize (n mod 10). intros m Hc Hm. lia. }
  induction fuel as [|fuel IH]; intros n acc Hc; cbn [dec_go].
  - cbn [count_char]. now rewrite Hd.
  - destruct (n <? 10).
    + cbn [count_char]. now rewrite Hd.
    + rewrite IH by assumption. cbn [count_char]. now rewrite Hd.
Qed.

Lemma count_char_dec (c : ascii) (n : N) :
  (N_of_ascii c < 48 \/ 57 < N_of_ascii c) -> count_char c (dec n) = 0%nat.
Proof. intros Hc. unfold dec. now rewrite count_char_dec_go. Qed.

(** [str] is injective on integers. *)
Lemma str_int_inj (a b : Z) : str_int a = str_int b -> a = b.
Proof.
  unfold str_int.
  destruct (Z.ltb_spec a 0) as [Ha|Ha], (Z.ltb_spec b 0) as [Hb|Hb]; intros H.
  - simpl in H. injection H as H. apply dec_inj in H. lia.
  - apply (f_equal (count_char "-")) in H.
    simpl in H. rewrite !count_char_dec in H by (cbn; lia). discriminate.
  - apply (f_equal (count_char "-")) in H.
    simpl in H. rewrite !count_char_dec in H by (cbn; lia). discriminate.
  - apply dec_inj in H. lia.
Qed.

Lemma count_slash_str_int (z : Z) : count_char "/" (str_int z) = 0%nat.
Proof.
  unfold str_int. destruct (z <? 0)%Z; simpl;
    rewrite count_char_dec by (cbn; lia); reflexivity.
Qed.

Lemma append_inj_l (a x y : string) : a +:+ x = a +:+ y -> x = y.
Proof. induction a as [|c a IH]; simpl; intros H; [exact H | injection H as H; auto]. Qed.

(** Two strings free of [/] that are followed by [/] end at the same
    place. *)
Lemma append_slash_inj (a a' x x' : string) :
  count_char "/" a = 0%nat -> count_char "/" a' = 0%nat ->
  a +:+ String "/" x = a' +:+ String "/" x' -> a = a' /\ x = x'.
Proof.
  revert a'. induction a as [|c a IH]; intros [|c' a'] Ha Ha' H; simpl in *.
  - injection H as H. auto.
  - injection H as Hc H. subst c'. simpl in Ha'. discriminate.
  - injection H as Hc H. subst c. simpl in Ha. discriminate.
  - injection H as Hc H. subst c'.
    destruct (Ascii.eqb c "/"); [discriminate |].
    destruct (IH a' Ha Ha' H) as [-> ->]. auto.
Qed.

End decimal_facts.

(** ** The URLs of [fandom/discussions.py] *)

Section discussion_urls.

Import discussions.

Lemma Thread_url_eq (t : Thread) :
  Thread_url t
  = py_str (Wiki.url (parent_wiki (thread_parent t))) +:+ "/f/" +:+ str_int (thread_id t).
Proof. reflexivity. Qed.

Lemma Post_url_eq (p : Post) :
  post_id p <> 0%Z ->
  Post_url p
  = py_str (Wiki.url (parent_wiki (thread_parent (post_parent p)))) +:+ "/f/" +:+
    str_int (thread_id (post_parent p)) +:+ "/r/" +:+ str_int (post_id p).
Proof.
  intros Hp. unfold Post_url, Wiki.discussions_url. cbn [truthy py_str].
  apply Z.eqb_neq in Hp. rewrite Hp. cbn [negb].
  now rewrite !append_assoc.
Qed.

(** X19.  The URL of a post extends the URL of its thread by [/r/] and the
    post id; a post whose id is 0 gets the URL of the thread itself. *)
Theorem Post_url_extends_Thread_url (p : Post) :
  (post_id p <> 0%Z ->
     Post_url p = Thread_url (post_parent p) +:+ "/r/" +:+ str_int (post_id p))
  /\ (post_id p = 0%Z -> Post_url p = Thread_url (post_parent p)).
Proof.
  split.
  - intros Hp. rewrite Post_url_eq, Thread_url_eq by assumption.
    now rewrite !append_assoc.
  - intros Hp. unfold Post_url, Thread_url, Wiki.discussions_url.
    rewrite Hp. reflexivity.
Qed.

(** X20.  On one wiki, threads with different ids have different URLs. *)
Theorem Thread_url_injective (t t' : Thread) :
  Wiki.url (parent_wiki (thread_parent t)) = Wiki.url (parent_wiki (thread_parent t')) ->
  Thread_url t = Thread_url t' -> thread_id t = thread_id t'.
Proof.
  intros Hw H. rewrite !Thread_url_eq, Hw in H.
  now apply append_inj_l, append_inj_l, str_int_inj in H.
Qed.

(** X21.  On one wiki, the URL of a post with a non-zero id is the URL of
    no thread, and two such posts with the same URL have the same thread id
    and the same post id. *)
Theorem Post_url_injective (p q : Post) (t : Thread) :
  Wiki.url (parent_wiki (thread_parent (post_parent p)))
    = Wiki.url (parent_wiki (thread_parent (post_parent q))) ->
  Wiki.url (parent_wiki (thread_parent (post_parent p)))
    = Wiki.url (parent_wiki (thread_parent t)) ->
  post_id p <> 0%Z -> post_id q <> 0%Z ->
  Post_url p <> Thread_url t
  /\ (Post_url p = Post_url q ->
      thread_id (post_parent p) = thread_id (post_parent q) /\ post_id p = post_id q).
Proof.
  intros Hq Ht Hp Hq0. split.
  - rewrite Post_url_eq, Thread_url_eq, Ht by assumption. intros H.
    apply append_inj_l, append_inj_l in H.
    apply (f_equal (count_char "/")) in H.
    rewrite !count_char_append, !count_slash_str_int in H. discriminate.
  - rewrite !Post_url_eq, Hq by assumption. intros H.
    apply append_inj_l, append_inj_l in H.
    apply append_slash_inj in H as [Ht' Hr]; try apply count_slash_str_int.
    apply str_int_inj in Ht'. injection Hr as Hr. apply str_int_inj in Hr. auto.
Qed.

(** X22.  On one wiki, categories with different ids have different
    URLs. *)
Theorem Category_url_injective (c c' : Category) :
  Wiki.url (category_wiki c) = Wiki.url (category_wiki c') ->
  Category_url c = Category_url c' -> category_id c = category_id c'.
Proof.
  intros Hw H. unfold Category_url in H. rewrite Hw in H. cbn [py_str] in H.
  now apply append_inj_l, append_inj_l, str_int_inj in H.
Qed.

End discussion_urls.

Lemma Post_url_extends_Thread_url_witness :
  discussions.Post_url sample_reply = "https://example.fandom.com/f/42/r/7"
  /\ discussions.Post_url sample_zero_post = "https://example.fandom.com/f/42".
Proof.
  split.
  - exact (proj1 (Post_url_extends_Thread_url sample_reply) ltac:(discriminate)).
  - exact (proj2 (Post_url_extends_Thread_url sample_zero_post) eq_refl).
Defined.

Lemma Thread_url_injective_witness :
  discussions.thread_id sample_thread = discussions.thread_id sample_moved_thread.
Proof.
  apply Thread_url_injective; reflexivity.
Defined.

Lemma Post_url_injective_witness :
  discussions.Post_url sample_reply <> discussions.Thread_url sample_thread
  /\ (discussions.Post_url sample_reply = discussions.Post_url sample_edited_reply ->
      discussions.thread_id (discussions.post_parent sample_reply)
        = discussions.thread_id (discussions.post_parent sample_edited_reply)
      /\ discussions.post_id sample_reply = discussions.post_id sample_edited_reply).
Proof.
  apply (Post_url_injective sample_reply sample_edited_reply sample_thread);
    try reflexivity; discriminate.
Defined.

Lemma Category_url_injective_witness :
  discussions.category_id sample_category
  = discussions.category_id sample_renamed_category.
Proof.
  apply Category_url_injective; reflexivity.
Defined.

(** ** How many requests [fetch_posts] issues *)

Lemma query_nirvana_log (self : Wiki.t) (params : dict) (log : list request) :
  exists new, (Wiki.query_nirvana self params log).2 = log ++ new
              /\ (length new <= 1)%nat
              /\ Forall (fun r => exists u, Wiki.url self = VStr u
                                            /\ req_url r = u +:+ "/wikia.php") new.
Proof.
  unfold Wiki.query_nirvana, Wiki.url_plus.
  destruct (truthy (Wiki.url self)); cbn [negb].
  - destruct (Wiki.url self) as [| b | z | u] eqn:Hu;
      try (exists []; rewrite app_nil_r; repeat split; auto; fail).
    eexists [_]. repeat split; [cbn; lia |].
    apply Forall_cons. split; [| apply Forall_nil_2].
    exists u. split; reflexivity.
  - exists []. rewrite app_nil_r. repeat split; auto.
Qed.

(** X23.  [fetch_posts] only adds to the request log, and never more than
    two requests: exactly two, both to the discussion service, for two
    containers, none for one container, and otherwise at most one, which
    goes to [{url}/wikia.php]. *)
Theorem fetch_posts_request_count
    (self : Wiki.t) (limit : pyval) (containers : list string)
    (before after : option datetime) (log : list request) :
  exists new,
    (Wiki.fetch_posts self limit containers before after log).2 = log ++ new
    /\ (length containers = 2%nat ->
        length new = 2%nat
        /\ Forall (fun r => req_url r
                            = "https://services.fandom.com/discussion/" +:+
                              py_str (Wiki.id self) +:+ "/posts") new)
    /\ (length containers = 1%nat -> new = [])
    /\ (length containers <> 1%nat -> length containers <> 2%nat ->
        (length new <= 1)%nat
        /\ Forall (fun r => exists u, Wiki.url self = VStr u
                                      /\ req_url r = u +:+ "/wikia.php") new).
Proof.
  destruct containers as [|c1 [|c2 [|c3 rest]]].
  - destruct (query_nirvana_log self
                (Wiki.nirvana_kwargs (Wiki.fetch_posts_params limit before after)) log)
      as (new & Hlog & Hlen & Hall).
    exists new. rewrite fetch_posts_nirvana by discriminate.
    repeat split; try discriminate; assumption.
  - exists []. rewrite app_nil_r. split.
    + unfold Wiki.fetch_posts, dict_getitem. cbn [length Nat.eqb negb].
      rewrite fetch_posts_params_None by discriminate. reflexivity.
    + repeat split; try discriminate; try contradiction.
  - eexists [_; _]. rewrite fetch_posts_two_run. cbn [snd].
    split; [reflexivity |].
    repeat split; try discriminate; try contradiction.
    repeat (apply Forall_cons; split; [reflexivity |]). apply Forall_nil_2.
  - destruct (query_nirvana_log self
                (Wiki.nirvana_kwargs (Wiki.fetch_posts_params limit before after)) log)
      as (new & Hlog & Hlen & Hall).
    exists new. rewrite fetch_posts_nirvana by discriminate.
    repeat split; try discriminate; assumption.
Qed.

Lemma fetch_posts_request_count_witness :
  length (Wiki.fetch_posts partial_wiki VNone ["FORUM"; "WALL"] None None []).2 = 2%nat
  /\ (Wiki.fetch_posts partial_wiki VNone ["FORUM"] None None []).2 = []
  /\ (length (Wiki.fetch_posts wiki_example VNone
                ["ARTICLE_COMMENT"; "FORUM"; "WALL"; "FORUM"] None None []).2 <= 1)%nat.
Proof.
  destruct (fetch_posts_request_count partial_wiki VNone ["FORUM"; "WALL"] None None [])
    as (n2 & -> & H2 & _).
  destruct (fetch_posts_request_count partial_wiki VNone ["FORUM"] None None [])
    as (n1 & -> & _ & H1 & _).
  destruct (fetch_posts_request_count wiki_example VNone
              ["ARTICLE_COMMENT"; "FORUM"; "WALL"; "FORUM"] None None [])
    as (n4 & -> & _ & _ & H4).
  split; [exact (proj1 (H2 eq_refl)) |].
  split; [now rewrite (H1 eq_refl) |].
  apply H4; discriminate.
Defined.
